(** * APIChain: the two-phase, model-mediated API call chain

    A shallow embedding of [langchain/chains/api/base.py].

    The chain asks a language model for a URL, fetches that URL, optionally
    post-processes the fetched text, and asks the model again for an answer.
    Everything the chain talks to (the two [LLMChain]s, the
    [TextRequestsWrapper], the callback manager and the optional output
    parser) is a collaborator living outside this file; each of them is
    modelled as a method acting on an abstract [World], which may raise.
    Every call the chain issues is also logged as an [Event].  What a
    collaborator is called with is stated on the collaborator itself: a
    theorem takes what the collaborators answer, on given arguments and in
    given worlds, and concludes what the run returns, the world it ends in
    and the calls it logged. *)

From Stdlib Require Import Ascii String.
From stdpp Require Import gmap strings list.

#[local] Set Warnings "-clear-no-such-hyp".

(** ** Python values used by the chain *)

(** One entry of a pydantic [ValidationError]: a [ValueError] raised by a
    root validator, or a required field that was not supplied. *)
Inductive ErrorWrapper : Type :=
| RootError (msg : string)
| MissingError (loc : string).

(** Exceptions.  [KeyError] is what [d[k]] raises for an absent key,
    [ValueError] is what the two validators raise, [ValidationError] is what
    pydantic's model construction raises (it wraps the errors it collected),
    and [Raised] stands for any exception coming out of a collaborator. *)
Inductive exn : Type :=
| KeyError (key : string)
| ValueError (msg : string)
| ValidationError (errors : list ErrorWrapper)
| Raised (cls msg : string).

(** The literal ["\n"] of the source. *)
Definition newline : string := String (ascii_of_nat 10) EmptyString.

(** Calls to collaborators, in the order they are issued, each with its
    arguments and how it came back ([inl] an exception, [inr] a value). *)
Inductive Event : Type :=
| Ev_request_predict (kwargs : gmap string string) (out : exn + string)
| Ev_request_apredict (kwargs : gmap string string) (out : exn + string)
| Ev_on_text (text color end_ : string) (verbose : bool) (out : exn + unit)
| Ev_get (url : string) (out : exn + string)
| Ev_aget (url : string) (out : exn + string)
| Ev_output_parser (text : string) (out : exn + string)
| Ev_answer_predict (kwargs : gmap string string) (out : exn + string)
| Ev_answer_apredict (kwargs : gmap string string) (out : exn + string).

(** The keyword arguments of the two [predict] calls. *)
Definition request_kwargs (question api_docs : string) : gmap string string :=
  <["question" := question]> (<["api_docs" := api_docs]> ∅).

Definition answer_kwargs (question api_docs api_url api_response : string)
  : gmap string string :=
  <["question" := question]> (<["api_docs" := api_docs]>
  (<["api_url" := api_url]> (<["api_response" := api_response]> ∅))).

(** ** Collaborators and the effect monad *)

(** A method of a collaborator: reads and updates the world, returns or
    raises. *)
Definition Call (World A : Type) : Type := World -> (exn + A) * World.

Record BasePromptTemplate : Type := { input_variables : list string }.

Record LLMChain (World : Type) : Type := {
  prompt : BasePromptTemplate;
  predict : gmap string string -> Call World string;
  apredict : gmap string string -> Call World string
}.
Arguments prompt {World} _.
Arguments predict {World} _ _ _.
Arguments apredict {World} _ _ _.

Record TextRequestsWrapper (World : Type) : Type := {
  get : string -> Call World string;
  aget : string -> Call World string
}.
Arguments get {World} _ _ _.
Arguments aget {World} _ _ _.

(** [on_text text color end verbose]. *)
Record BaseCallbackManager (World : Type) : Type := {
  on_text : string -> string -> string -> bool -> Call World unit
}.
Arguments on_text {World} _ _ _ _ _ _.

(** A Python object that can be called on a text, such as the value of
    [api_request_output_parser].  [truthy] is its truth value, what
    [if obj:] tests: [True] for every function object, and whatever
    [__bool__] or [__len__] say for an instance of a class that defines
    [__call__]. *)
Record Callable (World : Type) : Type := {
  truthy : bool;
  call : string -> Call World string
}.
Arguments truthy {World} _.
Arguments call {World} _ _ _.

(** A function object. *)
Definition function {World} (f : string -> Call World string)
  : Callable World :=
  {| truthy := true; call := f |}.

(** What a run leaves behind: its result, the world after it, and the calls
    it issued. *)
Record Outcome (World A : Type) : Type := {
  result : exn + A;
  world : World;
  events : list Event
}.
Arguments Build_Outcome {World A} _ _ _.
Arguments result {World A} _.
Arguments world {World A} _.
Arguments events {World A} _.

Definition M (World A : Type) : Type := World -> Outcome World A.

Definition ret {World A} (a : A) : M World A :=
  fun w => {| result := inr a; world := w; events := [] |}.

Definition raise {World A} (e : exn) : M World A :=
  fun w => {| result := inl e; world := w; events := [] |}.

Definition bind {World A B} (m : M World A) (k : A -> M World B) : M World B :=
  fun w =>
    let o := m w in
    match result o with
    | inl e => {| result := inl e; world := world o; events := events o |}
    | inr a =>
        let o' := k a (world o) in
        {| result := result o'; world := world o';
           events := events o ++ events o' |}
    end.

(** Issue one call and log it. *)
Definition invoke {World A} (ev : exn + A -> Event) (c : Call World A)
  : M World A :=
  fun w =>
    let r := c w in
    {| result := fst r; world := snd r; events := [ev (fst r)] |}.

(** [d[k]] on a Python dict. *)
Definition getitem {World} (d : gmap string string) (k : string)
  : M World string :=
  match d !! k with
  | Some v => ret v
  | None => raise (KeyError k)
  end.

Declare Scope chain_scope.
Delimit Scope chain_scope with chain.
Notation "x <- m ;; k" := (bind m (fun x => k))
  (at level 100, m at next level, right associativity) : chain_scope.
Notation "m ;; k" := (bind m (fun _ => k))
  (at level 100, right associativity) : chain_scope.
Local Open Scope chain_scope.

(** [o] with [evs] logged before it. *)
Definition prepend {World A} (evs : list Event) (o : Outcome World A)
  : Outcome World A :=
  {| result := result o; world := world o; events := evs ++ events o |}.

(** ** The chain *)

Record APIChain (World : Type) : Type := {
  api_request_chain : LLMChain World;
  api_answer_chain : LLMChain World;
  requests_wrapper : TextRequestsWrapper World;
  api_docs : string;
  question_key : string;
  output_key : string;
  (* [None], or an object called on the fetched text to give the text shown
     to the model *)
  api_request_output_parser : option (Callable World);
  (* inherited from [Chain] *)
  callback_manager : BaseCallbackManager World;
  verbose : bool
}.
Arguments api_request_chain {World} _.
Arguments api_answer_chain {World} _.
Arguments requests_wrapper {World} _.
Arguments api_docs {World} _.
Arguments question_key {World} _.
Arguments output_key {World} _.
Arguments api_request_output_parser {World} _.
Arguments callback_manager {World} _.
Arguments verbose {World} _.

Section Pipeline.
Context {World : Type}.

Definition input_keys (self : APIChain World) : list string :=
  [question_key self].

Definition output_keys (self : APIChain World) : list string :=
  [output_key self].

Definition _call (self : APIChain World) (inputs : gmap string string)
  : M World (gmap string string) :=
  question <- getitem inputs (question_key self) ;;
  api_url <- invoke (Ev_request_predict (request_kwargs question (api_docs self)))
               (predict (api_request_chain self)
                  (request_kwargs question (api_docs self))) ;;
  invoke (Ev_on_text api_url "green" newline (verbose self))
    (on_text (callback_manager self) api_url "green" newline (verbose self)) ;;
  api_response <- invoke (Ev_get api_url)
                    (get (requests_wrapper self) api_url) ;;
  invoke (Ev_on_text api_response "yellow" newline (verbose self))
    (on_text (callback_manager self) api_response "yellow" newline
       (verbose self)) ;;
  api_response <- match api_request_output_parser self with
                  | Some parser =>
                      if truthy parser
                      then invoke (Ev_output_parser api_response)
                             (call parser api_response)
                      else ret api_response
                  | None => ret api_response
                  end ;;
  answer <- invoke (Ev_answer_predict
                      (answer_kwargs question (api_docs self) api_url
                         api_response))
              (predict (api_answer_chain self)
                 (answer_kwargs question (api_docs self) api_url
                    api_response)) ;;
  ret ({[ output_key self := answer ]} : gmap string string).

Definition _acall (self : APIChain World) (inputs : gmap string string)
  : M World (gmap string string) :=
  question <- getitem inputs (question_key self) ;;
  api_url <- invoke (Ev_request_apredict
                       (request_kwargs question (api_docs self)))
               (apredict (api_request_chain self)
                  (request_kwargs question (api_docs self))) ;;
  invoke (Ev_on_text api_url "green" newline (verbose self))
    (on_text (callback_manager self) api_url "green" newline (verbose self)) ;;
  api_response <- invoke (Ev_aget api_url)
                    (aget (requests_wrapper self) api_url) ;;
  invoke (Ev_on_text api_response "yellow" newline (verbose self))
    (on_text (callback_manager self) api_response "yellow" newline
       (verbose self)) ;;
  answer <- invoke (Ev_answer_apredict
                      (answer_kwargs question (api_docs self) api_url
                         api_response))
              (apredict (api_answer_chain self)
                 (answer_kwargs question (api_docs self) api_url
                    api_response)) ;;
  ret ({[ output_key self := answer ]} : gmap string string).

Definition _chain_type (self : APIChain World) : string := "api_chain".

End Pipeline.

(** ** Runs of the blocking path, one rule per place where it can stop

    [call_run self inputs w o] lists the ways [_call] can end: the question
    is absent, one of the calls before phase 2 raises, or the phase-2 model
    is called and raises or answers.  [_call_run] below shows that [_call]
    always ends in one of them, so that the properties of the pipeline are
    proved by case analysis on a run. *)

Section Runs.
Context {World : Type}.
Implicit Types (self : APIChain World) (inputs : gmap string string).
Implicit Types (w : World) (e : exn) (q url raw resp answer : string).

Definition green self url (out : exn + unit) : Event :=
  Ev_on_text url "green" newline (verbose self) out.

Definition yellow self raw (out : exn + unit) : Event :=
  Ev_on_text raw "yellow" newline (verbose self) out.

(** The post-processing step of the blocking path: the parser, when there is
    one and it is truthy, is called on the fetched text. *)
Inductive parse_run self raw w : exn + string -> World -> list Event -> Prop :=
| parse_none :
    api_request_output_parser self = None ->
    parse_run self raw w (inr raw) w []
| parse_falsy parser :
    api_request_output_parser self = Some parser ->
    truthy parser = false ->
    parse_run self raw w (inr raw) w []
| parse_some parser out w' :
    api_request_output_parser self = Some parser ->
    truthy parser = true ->
    call parser raw w = (out, w') ->
    parse_run self raw w out w' [Ev_output_parser raw out].

Inductive call_run self inputs w : Outcome World (gmap string string) -> Prop :=
| run_no_question :
    inputs !! question_key self = None ->
    call_run self inputs w
      (Build_Outcome (inl (KeyError (question_key self))) w [])
| run_request_raises q e w1 :
    inputs !! question_key self = Some q ->
    predict (api_request_chain self) (request_kwargs q (api_docs self)) w
      = (inl e, w1) ->
    call_run self inputs w
      (Build_Outcome (inl e) w1
         [Ev_request_predict (request_kwargs q (api_docs self)) (inl e)])
| run_green_raises q url e w1 w2 :
    inputs !! question_key self = Some q ->
    predict (api_request_chain self) (request_kwargs q (api_docs self)) w
      = (inr url, w1) ->
    on_text (callback_manager self) url "green" newline (verbose self) w1
      = (inl e, w2) ->
    call_run self inputs w
      (Build_Outcome (inl e) w2
         [Ev_request_predict (request_kwargs q (api_docs self)) (inr url);
          green self url (inl e)])
| run_get_raises q url e w1 w2 w3 :
    inputs !! question_key self = Some q ->
    predict (api_request_chain self) (request_kwargs q (api_docs self)) w
      = (inr url, w1) ->
    on_text (callback_manager self) url "green" newline (verbose self) w1
      = (inr (), w2) ->
    get (requests_wrapper self) url w2 = (inl e, w3) ->
    call_run self inputs w
      (Build_Outcome (inl e) w3
         [Ev_request_predict (request_kwargs q (api_docs self)) (inr url);
          green self url (inr ());
          Ev_get url (inl e)])
| run_yellow_raises q url raw e w1 w2 w3 w4 :
    inputs !! question_key self = Some q ->
    predict (api_request_chain self) (request_kwargs q (api_docs self)) w
      = (inr url, w1) ->
    on_text (callback_manager self) url "green" newline (verbose self) w1
      = (inr (), w2) ->
    get (requests_wrapper self) url w2 = (inr raw, w3) ->
    on_text (callback_manager self) raw "yellow" newline (verbose self) w3
      = (inl e, w4) ->
    call_run self inputs w
      (Build_Outcome (inl e) w4
         [Ev_request_predict (request_kwargs q (api_docs self)) (inr url);
          green self url (inr ());
          Ev_get url (inr raw);
          yellow self raw (inl e)])
| run_parser_raises q url raw e w1 w2 w3 w4 w5 evp :
    inputs !! question_key self = Some q ->
    predict (api_request_chain self) (request_kwargs q (api_docs self)) w
      = (inr url, w1) ->
    on_text (callback_manager self) url "green" newline (verbose self) w1
      = (inr (), w2) ->
    get (requests_wrapper self) url w2 = (inr raw, w3) ->
    on_text (callback_manager self) raw "yellow" newline (verbose self) w3
      = (inr (), w4) ->
    parse_run self raw w4 (inl e) w5 evp ->
    call_run self inputs w
      (Build_Outcome (inl e) w5
         ([Ev_request_predict (request_kwargs q (api_docs self)) (inr url);
           green self url (inr ());
           Ev_get url (inr raw);
           yellow self raw (inr ())] ++ evp))
| run_answer q url raw resp out w1 w2 w3 w4 w5 w6 evp :
    inputs !! question_key self = Some q ->
    predict (api_request_chain self) (request_kwargs q (api_docs self)) w
      = (inr url, w1) ->
    on_text (callback_manager self) url "green" newline (verbose self) w1
      = (inr (), w2) ->
    get (requests_wrapper self) url w2 = (inr raw, w3) ->
    on_text (callback_manager self) raw "yellow" newline (verbose self) w3
      = (inr (), w4) ->
    parse_run self raw w4 (inr resp) w5 evp ->
    predict (api_answer_chain self)
      (answer_kwargs q (api_docs self) url resp) w5 = (out, w6) ->
    call_run self inputs w
      (Build_Outcome
         (match out with
          | inl e => inl e
          | inr answer => inr {[ output_key self := answer ]}
          end)
         w6
         ([Ev_request_predict (request_kwargs q (api_docs self)) (inr url);
           green self url (inr ());
           Ev_get url (inr raw);
           yellow self raw (inr ())] ++ evp ++
          [Ev_answer_predict (answer_kwargs q (api_docs self) url resp) out])).

(** *** Runs of the suspending path

    [_acall] awaits each collaborator in turn, so a run of it is the same
    kind of sequence; there is no parsing step in it. *)

Inductive acall_run self inputs w : Outcome World (gmap string string) -> Prop :=
| arun_no_question :
    inputs !! question_key self = None ->
    acall_run self inputs w
      (Build_Outcome (inl (KeyError (question_key self))) w [])
| arun_request_raises q e w1 :
    inputs !! question_key self = Some q ->
    apredict (api_request_chain self) (request_kwargs q (api_docs self)) w
      = (inl e, w1) ->
    acall_run self inputs w
      (Build_Outcome (inl e) w1
         [Ev_request_apredict (request_kwargs q (api_docs self)) (inl e)])
| arun_green_raises q url e w1 w2 :
    inputs !! question_key self = Some q ->
    apredict (api_request_chain self) (request_kwargs q (api_docs self)) w
      = (inr url, w1) ->
    on_text (callback_manager self) url "green" newline (verbose self) w1
      = (inl e, w2) ->
    acall_run self inputs w
      (Build_Outcome (inl e) w2
         [Ev_request_apredict (request_kwargs q (api_docs self)) (inr url);
          green self url (inl e)])
| arun_aget_raises q url e w1 w2 w3 :
    inputs !! question_key self = Some q ->
    apredict (api_request_chain self) (request_kwargs q (api_docs self)) w
      = (inr url, w1) ->
    on_text (callback_manager self) url "green" newline (verbose self) w1
      = (inr (), w2) ->
    aget (requests_wrapper self) url w2 = (inl e, w3) ->
    acall_run self inputs w
      (Build_Outcome (inl e) w3
         [Ev_request_apredict (request_kwargs q (api_docs self)) (inr url);
          green self url (inr ());
          Ev_aget url (inl e)])
| arun_yellow_raises q url raw e w1 w2 w3 w4 :
    inputs !! question_key self = Some q ->
    apredict (api_request_chain self) (request_kwargs q (api_docs self)) w
      = (inr url, w1) ->
    on_text (callback_manager self) url "green" newline (verbose self) w1
      = (inr (), w2) ->
    aget (requests_wrapper self) url w2 = (inr raw, w3) ->
    on_text (callback_manager self) raw "yellow" newline (verbose self) w3
      = (inl e, w4) ->
    acall_run self inputs w
      (Build_Outcome (inl e) w4
         [Ev_request_apredict (request_kwargs q (api_docs self)) (inr url);
          green self url (inr ());
          Ev_aget url (inr raw);
          yellow self raw (inl e)])
| arun_answer q url raw out w1 w2 w3 w4 w6 :
    inputs !! question_key self = Some q ->
    apredict (api_request_chain self) (request_kwargs q (api_docs self)) w
      = (inr url, w1) ->
    on_text (callback_manager self) url "green" newline (verbose self) w1
      = (inr (), w2) ->
    aget (requests_wrapper self) url w2 = (inr raw, w3) ->
    on_text (callback_manager self) raw "yellow" newline (verbose self) w3
      = (inr (), w4) ->
    apredict (api_answer_chain self)
      (answer_kwargs q (api_docs self) url raw) w4 = (out, w6) ->
    acall_run self inputs w
      (Build_Outcome
         (match out with
          | inl e => inl e
          | inr answer => inr {[ output_key self := answer ]}
          end)
         w6
         [Ev_request_apredict (request_kwargs q (api_docs self)) (inr url);
          green self url (inr ());
          Ev_aget url (inr raw);
          yellow self raw (inr ());
          Ev_answer_apredict (answer_kwargs q (api_docs self) url raw) out]).

End Runs.

(** ** Construction

    [APIChain] is a pydantic model.  Constructing it runs the two
    [root_validator(pre=True)] methods, in the order they are declared, on the
    dict of supplied values; a [ValueError] raised by one of them ends the
    construction at once and is reported as a [ValidationError], any other
    exception escapes as it is.  The fields are then filled in from the
    values, with the defaults of the class declaration. *)

Record Values (World : Type) : Type := {
  v_api_request_chain : option (LLMChain World);
  v_api_answer_chain : option (LLMChain World);
  v_requests_wrapper : option (TextRequestsWrapper World);
  v_api_docs : option string;
  v_question_key : option string;
  v_output_key : option string;
  v_api_request_output_parser : option (Callable World);
  v_callback_manager : BaseCallbackManager World;
  v_verbose : bool
}.
Arguments v_api_request_chain {World} _.
Arguments v_api_answer_chain {World} _.
Arguments v_requests_wrapper {World} _.
Arguments v_api_docs {World} _.
Arguments v_question_key {World} _.
Arguments v_output_key {World} _.
Arguments v_api_request_output_parser {World} _.
Arguments v_callback_manager {World} _.
Arguments v_verbose {World} _.

Section Construction.
Context {World : Type}.

(** How Python prints a set and a list of strings inside the error message
    (the order in which a set is printed is not fixed by the language). *)
Variable repr_set : gset string -> string.
Variable repr_list : list string -> string.

Definition mismatch_message (expected_vars : gset string)
    (input_vars : list string) : string :=
  "Input variables should be " +:+ repr_set expected_vars +:+
  ", got " +:+ repr_list input_vars.

Definition api_request_vars : gset string := {[ "question"; "api_docs" ]}.

Definition api_answer_vars : gset string :=
  {[ "question"; "api_docs"; "api_url"; "api_response" ]}.

Definition validate_api_request_prompt (values : Values World)
  : exn + Values World :=
  match v_api_request_chain values with
  | None => inl (KeyError "api_request_chain")
  | Some chain =>
      let input_vars := input_variables (prompt chain) in
      let expected_vars := api_request_vars in
      if decide (list_to_set input_vars ≠ expected_vars)
      then inl (ValueError (mismatch_message expected_vars input_vars))
      else inr values
  end.

Definition validate_api_answer_prompt (values : Values World)
  : exn + Values World :=
  match v_api_answer_chain values with
  | None => inl (KeyError "api_answer_chain")
  | Some chain =>
      let input_vars := input_variables (prompt chain) in
      let expected_vars := api_answer_vars in
      if decide (list_to_set input_vars ≠ expected_vars)
      then inl (ValueError (mismatch_message expected_vars input_vars))
      else inr values
  end.

(** One pre root validator, as the model construction runs it. *)
Definition pre_root (validator : Values World -> exn + Values World)
    (values : Values World) : exn + Values World :=
  match validator values with
  | inl (ValueError msg) => inl (ValidationError [RootError msg])
  | other => other
  end.

Definition missing {A} (loc : string) (field : option A) : list ErrorWrapper :=
  match field with
  | Some _ => []
  | None => [MissingError loc]
  end.

(** The fields of the class declaration: four required ones, and
    [question_key = "question"], [output_key = "output"],
    [api_request_output_parser = None] by default. *)
Definition populate (values : Values World) : exn + APIChain World :=
  match v_api_request_chain values, v_api_answer_chain values,
        v_requests_wrapper values, v_api_docs values with
  | Some request_chain, Some answer_chain, Some wrapper, Some docs =>
      inr {| api_request_chain := request_chain;
             api_answer_chain := answer_chain;
             requests_wrapper := wrapper;
             api_docs := docs;
             question_key := default "question" (v_question_key values);
             output_key := default "output" (v_output_key values);
             api_request_output_parser := v_api_request_output_parser values;
             callback_manager := v_callback_manager values;
             verbose := v_verbose values |}
  | _, _, _, _ =>
      inl (ValidationError
             (missing "api_request_chain" (v_api_request_chain values) ++
              missing "api_answer_chain" (v_api_answer_chain values) ++
              missing "requests_wrapper" (v_requests_wrapper values) ++
              missing "api_docs" (v_api_docs values)))
  end.

Definition APIChain_init (values : Values World) : exn + APIChain World :=
  match pre_root validate_api_request_prompt values with
  | inl e => inl e
  | inr values =>
      match pre_root validate_api_answer_prompt values with
      | inl e => inl e
      | inr values => populate values
      end
  end.

End Construction.

(** ** The factory

    [from_llm_and_api_docs] wraps the model and the two prompts into
    [LLMChain]s, builds the requests wrapper and hands everything to the
    constructor.  The constructors of [LLMChain] and [TextRequestsWrapper]
    belong to other modules and are taken as given. *)

Record FactoryKwargs (World : Type) : Type := {
  kw_question_key : option string;
  kw_output_key : option string;
  kw_callback_manager : BaseCallbackManager World;
  kw_verbose : bool
}.
Arguments kw_question_key {World} _.
Arguments kw_output_key {World} _.
Arguments kw_callback_manager {World} _.
Arguments kw_verbose {World} _.

Section Factory.
Context {World : Type}.
Variable repr_set : gset string -> string.
Variable repr_list : list string -> string.
Variables BaseLanguageModel RequestsDefaults : Type.
Variable LLMChain_new :
  BaseLanguageModel -> BasePromptTemplate -> LLMChain World.
Variable TextRequestsWrapper_new :
  option RequestsDefaults -> TextRequestsWrapper World.

Definition from_llm_and_api_docs (llm : BaseLanguageModel) (api_docs : string)
    (requests_defaults : option RequestsDefaults)
    (api_url_prompt api_response_prompt : BasePromptTemplate)
    (api_request_output_parser : option (Callable World))
    (kwargs : FactoryKwargs World) : exn + APIChain World :=
  let get_request_chain := LLMChain_new llm api_url_prompt in
  let requests_wrapper := TextRequestsWrapper_new requests_defaults in
  let get_answer_chain := LLMChain_new llm api_response_prompt in
  APIChain_init repr_set repr_list
    {| v_api_request_chain := Some get_request_chain;
       v_api_answer_chain := Some get_answer_chain;
       v_requests_wrapper := Some requests_wrapper;
       v_api_docs := Some api_docs;
       v_question_key := kw_question_key kwargs;
       v_output_key := kw_output_key kwargs;
       v_api_request_output_parser := api_request_output_parser;
       v_callback_manager := kw_callback_manager kwargs;
       v_verbose := kw_verbose kwargs |}.

End Factory.

(** What the specification calls a ConfigurationError: the [ValueError] of a
    prompt validator, as the construction reports it. *)
Definition ConfigurationError (e : exn) : Prop :=
  exists msg, e = ValidationError [RootError msg].

(** ** Properties of collaborators and of event lists *)

Section Properties.
Context {World : Type}.

(** A method whose answer does not depend on the world it runs in. *)
Definition deterministic {A} (c : Call World A) : Prop :=
  forall w w', fst (c w) = fst (c w').

(** Every collaborator of the chain is deterministic in that sense. *)
Record pure_collaborators (self : APIChain World) : Prop := {
  pure_request : forall kw, deterministic (predict (api_request_chain self) kw);
  pure_answer : forall kw, deterministic (predict (api_answer_chain self) kw);
  pure_get : forall url, deterministic (get (requests_wrapper self) url);
  pure_on_text : forall text color end_ v,
    deterministic (on_text (callback_manager self) text color end_ v);
  pure_parser : forall parser text,
    api_request_output_parser self = Some parser ->
    deterministic (call parser text)
}.

(** The awaitable methods of the collaborators behave as the blocking ones. *)
Record sync_async_agree (self : APIChain World) : Prop := {
  agree_request : forall kw w,
    apredict (api_request_chain self) kw w
    = predict (api_request_chain self) kw w;
  agree_answer : forall kw w,
    apredict (api_answer_chain self) kw w
    = predict (api_answer_chain self) kw w;
  agree_get : forall url w,
    aget (requests_wrapper self) url w = get (requests_wrapper self) url w
}.

(** A run whose result and events do not depend on the initial world. *)
Definition stable {A} (m : M World A) : Prop :=
  forall w w', result (m w) = result (m w') /\ events (m w) = events (m w').

End Properties.

(** ** Stub collaborators, for running the chain on concrete inputs *)

Section Stubs.
Context {World : Type}.

Definition stub_llm (vars : list string)
    (f : gmap string string -> exn + string) : LLMChain World :=
  {| prompt := {| input_variables := vars |};
     predict := fun kw w => (f kw, w);
     apredict := fun kw w => (f kw, w) |}.

Definition stub_requests (f : string -> exn + string)
  : TextRequestsWrapper World :=
  {| get := fun url w => (f url, w); aget := fun url w => (f url, w) |}.

Definition silent_callbacks : BaseCallbackManager World :=
  {| on_text := fun _ _ _ _ w => (inr (), w) |}.

Definition stub_parser (f : string -> string) : string -> Call World string :=
  fun text w => (inr (f text), w).

(** A phase-2 model that answers with its [api_response] binding. *)
Definition echo_api_response (kw : gmap string string) : exn + string :=
  match kw !! "api_response" with
  | Some v => inr v
  | None => inl (KeyError "api_response")
  end.

End Stubs.

Definition upper_ascii (c : ascii) : ascii :=
  let n := nat_of_ascii c in
  if (97 <=? n)%nat && (n <=? 122)%nat then ascii_of_nat (n - 32) else c.

Fixpoint toUpperCase (s : string) : string :=
  match s with
  | EmptyString => EmptyString
  | String c s' => String (upper_ascii c) (toUpperCase s')
  end.

Definition dquote : string := String (ascii_of_nat 34) EmptyString.

(** The text [{"temp_c": 18}]. *)
Definition weather_json : string :=
  "{" +:+ dquote +:+ "temp_c" +:+ dquote +:+ ": 18}".

Definition weather_question : string := "What is the weather in Paris?".

Definition weather_url : string := "https://api.weather/paris".

(** The chain of the end-to-end scenario: phase 1 answers [weather_url], the
    fetcher answers [weather_json], phase 2 echoes its [api_response]; no
    parser is configured. *)
Definition weather_chain {World} (docs qk ok : string)
    (cm : BaseCallbackManager World) (v : bool) : APIChain World :=
  {| api_request_chain :=
       stub_llm ["question"; "api_docs"] (fun _ => inr weather_url);
     api_answer_chain :=
       stub_llm ["question"; "api_docs"; "api_url"; "api_response"]
         echo_api_response;
     requests_wrapper := stub_requests (fun _ => inr weather_json);
     api_docs := docs;
     question_key := qk;
     output_key := ok;
     api_request_output_parser := None;
     callback_manager := cm;
     verbose := v |}.

(** A small chain over the trivial world, with a parser or without. *)
Definition demo_chain (fetched : exn + string)
    (parser : option (string -> string)) : APIChain unit :=
  {| api_request_chain :=
       stub_llm ["question"; "api_docs"] (fun _ => inr "http://x/y?z=1");
     api_answer_chain :=
       stub_llm ["question"; "api_docs"; "api_url"; "api_response"]
         echo_api_response;
     requests_wrapper := stub_requests (fun _ => fetched);
     api_docs := "docs";
     question_key := "question";
     output_key := "output";
     api_request_output_parser :=
       (fun f => function (stub_parser f)) <$> parser;
     callback_manager := silent_callbacks;
     verbose := false |}.

Definition demo_inputs : gmap string string := {[ "question" := "q" ]}.

(** Values for a construction attempt with the given prompt variables. *)
Definition demo_values (vars1 vars2 : list string) : Values unit :=
  {| v_api_request_chain := Some (stub_llm vars1 (fun _ => inr "u"));
     v_api_answer_chain := Some (stub_llm vars2 echo_api_response);
     v_requests_wrapper := Some (stub_requests (fun _ => inr "r"));
     v_api_docs := Some "docs";
     v_question_key := None;
     v_output_key := None;
     v_api_request_output_parser := None;
     v_callback_manager := silent_callbacks;
     v_verbose := false |}.

(** ** Reading the events of a run *)



(** The awaitable counterpart of a logged blocking call. *)
Definition to_async (ev : Event) : Event :=
  match ev with
  | Ev_request_predict kw out => Ev_request_apredict kw out
  | Ev_get url out => Ev_aget url out
  | Ev_answer_predict kw out => Ev_answer_apredict kw out
  | other => other
  end.

(** The chain with its parser taken away. *)
Definition without_parser {World} (self : APIChain World) : APIChain World :=
  {| api_request_chain := api_request_chain self;
     api_answer_chain := api_answer_chain self;
     requests_wrapper := requests_wrapper self;
     api_docs := api_docs self;
     question_key := question_key self;
     output_key := output_key self;
     api_request_output_parser := None;
     callback_manager := callback_manager self;
     verbose := verbose self |}.

(** Stub constructors for the factory, over the trivial world: the model is
    the function the chain's [predict] computes. *)
Definition demo_LLMChain_new (llm : gmap string string -> exn + string)
    (p : BasePromptTemplate) : LLMChain unit :=
  {| prompt := p;
     predict := fun kw w => (llm kw, w);
     apredict := fun kw w => (llm kw, w) |}.

Definition demo_TextRequestsWrapper_new (defaults : option unit)
  : TextRequestsWrapper unit :=
  stub_requests (fun _ => inr "r").

Definition demo_kwargs : FactoryKwargs unit :=
  {| kw_question_key := None;
     kw_output_key := Some "answer";
     kw_callback_manager := silent_callbacks;
     kw_verbose := true |}.

(** A callback manager that fails on the second notification, and a chain
    that uses it. *)
Definition closing_callbacks : BaseCallbackManager unit :=
  {| on_text := fun _ color _ _ w =>
       (if String.eqb color "yellow" then inl (Raised "OSError" "closed")
        else inr (), w) |}.

Definition noisy_chain : APIChain unit :=
  {| api_request_chain :=
       stub_llm ["question"; "api_docs"] (fun _ => inr "http://x/y?z=1");
     api_answer_chain :=
       stub_llm ["question"; "api_docs"; "api_url"; "api_response"]
         echo_api_response;
     requests_wrapper := stub_requests (fun _ => inr "abc");
     api_docs := "docs";
     question_key := "question";
     output_key := "output";
     api_request_output_parser := Some (function (stub_parser toUpperCase));
     callback_manager := closing_callbacks;
     verbose := false |}.

(** Collaborators that answer only to the arguments the blocking run on
    [demo_inputs] should give them, and raise on any other. *)
Definition expecting {A} (ok : bool) (a : A) : exn + A :=
  if ok then inr a else inl (Raised "AssertionError" "unexpected argument").

Definition probe_url : string := "http://x/y?z=1".

Definition probe_callbacks : BaseCallbackManager unit :=
  {| on_text := fun text color end_ v w =>
       (expecting
          ((String.eqb text probe_url && String.eqb color "green"
            || String.eqb text "abc" && String.eqb color "yellow")
           && String.eqb end_ newline && negb v) (), w) |}.

Definition probe_answer (kw : gmap string string) : exn + string :=
  match kw !! "api_response" with
  | Some resp =>
      expecting (bool_decide (kw = answer_kwargs "q" "docs" probe_url resp))
        resp
  | None => inl (KeyError "api_response")
  end.

Definition probe_chain (parser : option (Callable unit)) : APIChain unit :=
  {| api_request_chain :=
       stub_llm ["question"; "api_docs"]
         (fun kw =>
            expecting (bool_decide (kw = request_kwargs "q" "docs")) probe_url);
     api_answer_chain :=
       stub_llm ["question"; "api_docs"; "api_url"; "api_response"]
         probe_answer;
     requests_wrapper :=
       stub_requests (fun url => expecting (String.eqb url probe_url) "abc");
     api_docs := "docs";
     question_key := "question";
     output_key := "output";
     api_request_output_parser := parser;
     callback_manager := probe_callbacks;
     verbose := false |}.

(** The function that upper-cases a text, as a parser. *)
Definition upper_parser : Callable unit := function (stub_parser toUpperCase).

(** The calls of the blocking run of [probe_chain] on [demo_inputs] up to
    the second notification. *)
Definition probe_fetched : list Event :=
  [Ev_request_predict (request_kwargs "q" "docs") (inr probe_url);
   Ev_on_text probe_url "green" newline false (inr ());
   Ev_get probe_url (inr "abc");
   Ev_on_text "abc" "yellow" newline false (inr ())].

(** An object that upper-cases a text when called but counts as false, like
    an instance of a class with [__call__] and a [__len__] that returns 0. *)
Definition falsy_upper : Callable unit :=
  {| truthy := false; call := stub_parser toUpperCase |}.

(** The chain that [demo_values] describes when both prompts are right. *)
Definition demo_built (vars1 vars2 : list string) : APIChain unit :=
  {| api_request_chain := stub_llm vars1 (fun _ => inr "u");
     api_answer_chain := stub_llm vars2 echo_api_response;
     requests_wrapper := stub_requests (fun _ => inr "r");
     api_docs := "docs";
     question_key := "question";
     output_key := "output";
     api_request_output_parser := None;
     callback_manager := silent_callbacks;
     verbose := false |}.

(** Values in which only the answer chain is supplied. *)
Definition demo_values_no_request_chain : Values unit :=
  {| v_api_request_chain := None;
     v_api_answer_chain := Some (stub_llm ["question"] echo_api_response);
     v_requests_wrapper := Some (stub_requests (fun _ => inr "r"));
     v_api_docs := Some "docs";
     v_question_key := None;
     v_output_key := None;
     v_api_request_output_parser := None;
     v_callback_manager := silent_callbacks;
     v_verbose := false |}.

(** * Lemmas *)

(** ** Equations of the monad, used to step through a pipeline *)

Lemma bind_raise {World A B} (e : exn) (k : A -> M World B) w :
  bind (raise e) k w = Build_Outcome (inl e) w [].
Proof. reflexivity. Qed.

Lemma bind_ret {World A B} (a : A) (k : A -> M World B) w :
  bind (ret a) k w = prepend [] (k a w).
Proof. reflexivity. Qed.

Lemma bind_invoke_inl {World A B} ev (c : Call World A) (k : A -> M World B)
    w e w' :
  c w = (inl e, w') ->
  bind (invoke ev c) k w = Build_Outcome (inl e) w' [ev (inl e)].
Proof. intros E. unfold bind, invoke. by rewrite E. Qed.

Lemma bind_invoke_inr {World A B} ev (c : Call World A) (k : A -> M World B)
    w a w' :
  c w = (inr a, w') ->
  bind (invoke ev c) k w = prepend [ev (inr a)] (k a w').
Proof. intros E. unfold bind, invoke. by rewrite E. Qed.

Lemma invoke_eq {World A} ev (c : Call World A) w out w' :
  c w = (out, w') -> invoke ev c w = Build_Outcome out w' [ev out].
Proof. intros E. unfold invoke. by rewrite E. Qed.

(** ** Every call ends in one of the listed runs *)

Section RunLemmas.
Context {World : Type}.
Implicit Types (self : APIChain World) (inputs : gmap string string).
Implicit Types (w : World).

Lemma _call_run self inputs w : call_run self inputs w (_call self inputs w).
Proof.
  unfold _call, getitem.
  destruct (inputs !! question_key self) as [q|] eqn:Hq;
    [|rewrite bind_raise; by apply run_no_question].
  rewrite bind_ret.
  destruct (predict (api_request_chain self)
              (request_kwargs q (api_docs self)) w) as [[e|url] w1] eqn:E1.
  { rewrite (bind_invoke_inl _ _ _ _ _ _ E1). by eapply run_request_raises. }
  rewrite (bind_invoke_inr _ _ _ _ _ _ E1).
  destruct (on_text (callback_manager self) url "green" newline
              (verbose self) w1) as [[e|[]] w2] eqn:E2.
  { rewrite (bind_invoke_inl _ _ _ _ _ _ E2). by eapply run_green_raises. }
  rewrite (bind_invoke_inr _ _ _ _ _ _ E2).
  destruct (get (requests_wrapper self) url w2) as [[e|raw] w3] eqn:E3.
  { rewrite (bind_invoke_inl _ _ _ _ _ _ E3). by eapply run_get_raises. }
  rewrite (bind_invoke_inr _ _ _ _ _ _ E3).
  destruct (on_text (callback_manager self) raw "yellow" newline
              (verbose self) w3) as [[e|[]] w4] eqn:E4.
  { rewrite (bind_invoke_inl _ _ _ _ _ _ E4). by eapply run_yellow_raises. }
  rewrite (bind_invoke_inr _ _ _ _ _ _ E4).
  destruct (api_request_output_parser self) as [parser|] eqn:Hp;
    [destruct (truthy parser) eqn:Ht|].
  - destruct (call parser raw w4) as [[e|resp] w5] eqn:E5.
    + rewrite (bind_invoke_inl _ _ _ _ _ _ E5).
      eapply (run_parser_raises _ _ _ q url raw); eauto.
      by eapply parse_some.
    + rewrite (bind_invoke_inr _ _ _ _ _ _ E5).
      destruct (predict (api_answer_chain self)
                  (answer_kwargs q (api_docs self) url resp) w5)
        as [out w6] eqn:E6.
      pose proof (run_answer self inputs w q url raw resp out _ _ _ _ _ _ _
                    Hq E1 E2 E3 E4 (parse_some _ _ _ _ _ _ Hp Ht E5) E6) as R.
      destruct out as [e|answer].
      * by rewrite (bind_invoke_inl _ _ _ _ _ _ E6).
      * by rewrite (bind_invoke_inr _ _ _ _ _ _ E6).
  - rewrite bind_ret.
    destruct (predict (api_answer_chain self)
                (answer_kwargs q (api_docs self) url raw) w4)
      as [out w6] eqn:E6.
    pose proof (run_answer self inputs w q url raw raw out _ _ _ _ _ _ _
                  Hq E1 E2 E3 E4 (parse_falsy _ _ _ _ Hp Ht) E6) as R.
    destruct out as [e|answer].
    + by rewrite (bind_invoke_inl _ _ _ _ _ _ E6).
    + by rewrite (bind_invoke_inr _ _ _ _ _ _ E6).
  - rewrite bind_ret.
    destruct (predict (api_answer_chain self)
                (answer_kwargs q (api_docs self) url raw) w4)
      as [out w6] eqn:E6.
    pose proof (run_answer self inputs w q url raw raw out _ _ _ _ _ _ _
                  Hq E1 E2 E3 E4 (parse_none _ _ _ Hp) E6) as R.
    destruct out as [e|answer].
    + by rewrite (bind_invoke_inl _ _ _ _ _ _ E6).
    + by rewrite (bind_invoke_inr _ _ _ _ _ _ E6).
Qed.

Lemma _acall_run self inputs w :
  acall_run self inputs w (_acall self inputs w).
Proof.
  unfold _acall, getitem.
  destruct (inputs !! question_key self) as [q|] eqn:Hq;
    [|rewrite bind_raise; by apply arun_no_question].
  rewrite bind_ret.
  destruct (apredict (api_request_chain self)
              (request_kwargs q (api_docs self)) w) as [[e|url] w1] eqn:E1.
  { rewrite (bind_invoke_inl _ _ _ _ _ _ E1). by eapply arun_request_raises. }
  rewrite (bind_invoke_inr _ _ _ _ _ _ E1).
  destruct (on_text (callback_manager self) url "green" newline
              (verbose self) w1) as [[e|[]] w2] eqn:E2.
  { rewrite (bind_invoke_inl _ _ _ _ _ _ E2). by eapply arun_green_raises. }
  rewrite (bind_invoke_inr _ _ _ _ _ _ E2).
  destruct (aget (requests_wrapper self) url w2) as [[e|raw] w3] eqn:E3.
  { rewrite (bind_invoke_inl _ _ _ _ _ _ E3). by eapply arun_aget_raises. }
  rewrite (bind_invoke_inr _ _ _ _ _ _ E3).
  destruct (on_text (callback_manager self) raw "yellow" newline
              (verbose self) w3) as [[e|[]] w4] eqn:E4.
  { rewrite (bind_invoke_inl _ _ _ _ _ _ E4). by eapply arun_yellow_raises. }
  rewrite (bind_invoke_inr _ _ _ _ _ _ E4).
  destruct (apredict (api_answer_chain self)
              (answer_kwargs q (api_docs self) url raw) w4)
    as [out w6] eqn:E6.
  pose proof (arun_answer self inputs w q url raw out _ _ _ _ _
                Hq E1 E2 E3 E4 E6) as R.
  destruct out as [e|answer].
  - by rewrite (bind_invoke_inl _ _ _ _ _ _ E6).
  - by rewrite (bind_invoke_inr _ _ _ _ _ _ E6).
Qed.

End RunLemmas.

(** ** Results of a pipeline, one step at a time *)

Lemma result_bind_ret {World A B} (a : A) (k : A -> M World B) w :
  result (bind (ret a) k w) = result (k a w).
Proof. reflexivity. Qed.

Lemma result_bind_invoke {World A B} ev (c : Call World A)
    (k : A -> M World B) w :
  result (bind (invoke ev c) k w)
  = match fst (c w) with
    | inl e => inl e
    | inr a => result (k a (snd (c w)))
    end.
Proof. unfold bind, invoke. cbn. by destruct (fst (c w)). Qed.

(** ** Stability under a change of world *)

Section Stable.
Context {World : Type}.

Lemma stable_ret {A} (a : A) : stable (ret (World:=World) a).
Proof. by intros w w'. Qed.

Lemma stable_raise {A} e : stable (raise (World:=World) (A:=A) e).
Proof. by intros w w'. Qed.

Lemma stable_invoke {A} ev (c : Call World A) :
  deterministic c -> stable (invoke ev c).
Proof. intros Hc w w'. unfold invoke. cbn. by rewrite (Hc w w'). Qed.

Lemma stable_bind {A B} (m : M World A) (k : A -> M World B) :
  stable m -> (forall a, stable (k a)) -> stable (bind m k).
Proof.
  intros Hm Hk w w'. unfold bind.
  destruct (Hm w w') as [Hr He]. rewrite Hr, He.
  destruct (result (m w')) as [e|a]; [done|].
  destruct (Hk a (world (m w)) (world (m w'))) as [Hr' He']. cbn.
  by rewrite Hr', He'.
Qed.

Lemma stable_getitem (d : gmap string string) k :
  stable (getitem (World:=World) d k).
Proof. unfold getitem. destruct (d !! k); [apply stable_ret|apply stable_raise]. Qed.

Lemma _call_stable (self : APIChain World) inputs :
  pure_collaborators self -> stable (_call self inputs).
Proof.
  intros [H1 H2 H3 H4 H5]. unfold _call.
  apply stable_bind; [apply stable_getitem|intros question].
  apply stable_bind; [by apply stable_invoke|intros api_url].
  apply stable_bind; [by apply stable_invoke|intros _].
  apply stable_bind; [by apply stable_invoke|intros raw].
  apply stable_bind; [by apply stable_invoke|intros _].
  apply stable_bind.
  { destruct (api_request_output_parser self) as [parser|] eqn:Hp;
      [destruct (truthy parser)|].
    - apply stable_invoke. by apply H5.
    - apply stable_ret.
    - apply stable_ret. }
  intros api_response.
  apply stable_bind; [by apply stable_invoke|intros answer].
  apply stable_ret.
Qed.

End Stable.

(** ** Keyword arguments and phase-2 bindings *)

Lemma answer_kwargs_api_response q docs url resp :
  answer_kwargs q docs url resp !! "api_response" = Some resp.
Proof. unfold answer_kwargs. by simplify_map_eq. Qed.

(** ** A run is fixed by what the collaborators answer *)

(** Two runs from the same world make the same calls with the same
    outcomes, as far as both get. *)
Ltac same_calls :=
  simplify_eq;
  repeat match goal with
         | H1 : ?c = _, H2 : ?c = _ |- _ => rewrite H1 in H2; simplify_eq
         end.

(** Case analysis on the membership of an event in the events of a run. *)
Ltac split_elem H :=
  repeat first
    [ apply elem_of_nil in H; destruct H
    | apply elem_of_cons in H; destruct H as [H|H] ];
  simplify_eq.

Ltac invert_parse :=
  try match goal with
      | H : parse_run _ _ _ _ _ _ |- _ => inversion H; subst; clear H
      end.

Section RunsDetermined.
Context {World : Type}.
Implicit Types (self : APIChain World) (inputs : gmap string string).
Implicit Types (w : World).

Lemma parse_run_determined self raw w out out' w' w'' evs evs' :
  parse_run self raw w out w' evs ->
  parse_run self raw w out' w'' evs' ->
  out = out' /\ w' = w'' /\ evs = evs'.
Proof. intros [] R'; inversion R'; subst; same_calls; done. Qed.

Lemma call_run_determined self inputs w o o' :
  call_run self inputs w o -> call_run self inputs w o' -> o = o'.
Proof.
  intros R R'. destruct R; destruct R'; same_calls; try done;
    match goal with
    | H : parse_run _ _ _ _ _ _, H' : parse_run _ _ _ _ _ _ |- _ =>
        destruct (parse_run_determined _ _ _ _ _ _ _ _ _ H H') as (? & ? & ?)
    end; same_calls; done.
Qed.

(** Whatever run the answers of the collaborators allow is the run of
    [_call]. *)
Lemma call_run_complete self inputs w o :
  call_run self inputs w o -> _call self inputs w = o.
Proof. intros R. apply (call_run_determined _ _ _ _ _ (_call_run _ _ _) R). Qed.

Lemma acall_run_determined self inputs w o o' :
  acall_run self inputs w o -> acall_run self inputs w o' -> o = o'.
Proof. intros R R'. destruct R; destruct R'; same_calls; done. Qed.

Lemma acall_run_complete self inputs w o :
  acall_run self inputs w o -> _acall self inputs w = o.
Proof.
  intros R. apply (acall_run_determined _ _ _ _ _ (_acall_run _ _ _) R).
Qed.

End RunsDetermined.

(** * Construction: the two prompt contracts *)

Section ConstructionClaims.
Context {World : Type}.
Variable repr_set : gset string -> string.
Variable repr_list : list string -> string.

Lemma request_prompt_rejected (values : Values World) chain :
  v_api_request_chain values = Some chain ->
  list_to_set (input_variables (prompt chain)) ≠ api_request_vars ->
  validate_api_request_prompt repr_set repr_list values
  = inl (ValueError
           (mismatch_message repr_set repr_list api_request_vars
              (input_variables (prompt chain)))).
Proof.
  intros Hc Hne. unfold validate_api_request_prompt. rewrite Hc. cbn zeta.
  by rewrite decide_True.
Qed.

Lemma request_prompt_accepted (values : Values World) chain :
  v_api_request_chain values = Some chain ->
  list_to_set (input_variables (prompt chain)) = api_request_vars ->
  validate_api_request_prompt repr_set repr_list values = inr values.
Proof.
  intros Hc Heq. unfold validate_api_request_prompt. rewrite Hc. cbn zeta.
  rewrite decide_False; [done|]. by intros Hne.
Qed.

Lemma answer_prompt_rejected (values : Values World) chain :
  v_api_answer_chain values = Some chain ->
  list_to_set (input_variables (prompt chain)) ≠ api_answer_vars ->
  validate_api_answer_prompt repr_set repr_list values
  = inl (ValueError
           (mismatch_message repr_set repr_list api_answer_vars
              (input_variables (prompt chain)))).
Proof.
  intros Hc Hne. unfold validate_api_answer_prompt. rewrite Hc. cbn zeta.
  by rewrite decide_True.
Qed.

Lemma answer_prompt_accepted (values : Values World) chain :
  v_api_answer_chain values = Some chain ->
  list_to_set (input_variables (prompt chain)) = api_answer_vars ->
  validate_api_answer_prompt repr_set repr_list values = inr values.
Proof.
  intros Hc Heq. unfold validate_api_answer_prompt. rewrite Hc. cbn zeta.
  rewrite decide_False; [done|]. by intros Hne.
Qed.

(** The first validator, seen from the construction. *)
Lemma init_request_prompt_rejected (values : Values World) chain :
  v_api_request_chain values = Some chain ->
  list_to_set (input_variables (prompt chain)) ≠ api_request_vars ->
  APIChain_init repr_set repr_list values
  = inl (ValidationError
           [RootError (mismatch_message repr_set repr_list api_request_vars
                         (input_variables (prompt chain)))]).
Proof.
  intros Hc Hne. unfold APIChain_init, pre_root.
  by rewrite (request_prompt_rejected _ _ Hc Hne).
Qed.

(** Both validators pass exactly when both prompts declare the expected
    variables; the construction then succeeds as soon as the two remaining
    required fields are supplied. *)
Lemma init_accepted (values : Values World) chain1 chain2 wrapper docs :
  v_api_request_chain values = Some chain1 ->
  v_api_answer_chain values = Some chain2 ->
  v_requests_wrapper values = Some wrapper ->
  v_api_docs values = Some docs ->
  list_to_set (input_variables (prompt chain1)) = api_request_vars ->
  list_to_set (input_variables (prompt chain2)) = api_answer_vars ->
  exists self, APIChain_init repr_set repr_list values = inr self
    /\ api_request_chain self = chain1 /\ api_answer_chain self = chain2
    /\ api_docs self = docs.
Proof.
  intros H1 H2 H3 H4 E1 E2. unfold APIChain_init, pre_root.
  rewrite (request_prompt_accepted _ _ H1 E1).
  rewrite (answer_prompt_accepted _ _ H2 E2).
  unfold populate. rewrite H1, H2, H3, H4. eauto.
Qed.

Lemma question_alone_differs :
  list_to_set ["question"] ≠ api_request_vars.
Proof.
  intros H. assert ("api_docs" ∈ api_request_vars) as Hin
    by (unfold api_request_vars; set_solver).
  rewrite <- H in Hin. set_unfold. naive_solver.
Qed.

Lemma extra_foo_differs :
  list_to_set ["question"; "api_docs"; "foo"] ≠ api_request_vars.
Proof.
  intros H. assert ("foo" ∈ (list_to_set ["question"; "api_docs"; "foo"]
                              : gset string)) as Hin by set_solver.
  rewrite H in Hin. unfold api_request_vars in Hin. set_unfold. naive_solver.
Qed.

(** C1.  Whenever the phase-1 prompt (the prompt of [api_request_chain])
    declares a set of input variables different from [{question, api_docs}],
    the validator raises its [ValueError] and the construction fails with a
    ConfigurationError; this is so in particular for the variables
    [question] alone and for [question, api_docs, foo]. *)
Theorem request_prompt_contract (values : Values World) chain :
  v_api_request_chain values = Some chain ->
  (list_to_set (input_variables (prompt chain)) ≠ api_request_vars ->
   (exists msg, validate_api_request_prompt repr_set repr_list values
                = inl (ValueError msg)) /\
   (exists e, APIChain_init repr_set repr_list values = inl e
              /\ ConfigurationError e)) /\
  (input_variables (prompt chain) = ["question"] ->
   exists e, APIChain_init repr_set repr_list values = inl e
             /\ ConfigurationError e) /\
  (input_variables (prompt chain) = ["question"; "api_docs"; "foo"] ->
   exists e, APIChain_init repr_set repr_list values = inl e
             /\ ConfigurationError e).
Proof.
  intros Hc.
  assert (list_to_set (input_variables (prompt chain)) ≠ api_request_vars ->
          exists e, APIChain_init repr_set repr_list values = inl e
                    /\ ConfigurationError e) as Hinit.
  { intros Hne. eexists. split.
    - by apply init_request_prompt_rejected.
    - by eexists. }
  split; [|split].
  - intros Hne. split; [|by apply Hinit].
    eexists. by apply request_prompt_rejected.
  - intros Hv. apply Hinit. rewrite Hv. apply question_alone_differs.
  - intros Hv. apply Hinit. rewrite Hv. apply extra_foo_differs.
Qed.

(** C2, as amended.  Whenever the phase-2 prompt (the prompt of
    [api_answer_chain]) declares a set of input variables different from
    [{question, api_docs, api_url, api_response}], the second validator
    raises its [ValueError] and the construction fails: with a
    ConfigurationError when an [api_request_chain] is supplied, and with the
    [KeyError] of the first validator when none is. *)
Theorem answer_prompt_contract (values : Values World) chain2 :
  v_api_answer_chain values = Some chain2 ->
  list_to_set (input_variables (prompt chain2)) ≠ api_answer_vars ->
  (exists msg, validate_api_answer_prompt repr_set repr_list values
               = inl (ValueError msg)) /\
  (forall chain1, v_api_request_chain values = Some chain1 ->
     exists e, APIChain_init repr_set repr_list values = inl e
               /\ ConfigurationError e) /\
  (v_api_request_chain values = None ->
   APIChain_init repr_set repr_list values
   = inl (KeyError "api_request_chain")).
Proof.
  intros H2 Hne. split; [|split].
  - eexists. by apply answer_prompt_rejected.
  - intros chain1 H1.
    destruct (decide (list_to_set (input_variables (prompt chain1))
                      = api_request_vars)) as [Heq|Hne1].
    + eexists. split; [|by eexists].
      unfold APIChain_init, pre_root.
      rewrite (request_prompt_accepted _ _ H1 Heq).
      by rewrite (answer_prompt_rejected _ _ H2 Hne).
    + eexists. split; [by apply init_request_prompt_rejected|by eexists].
  - intros H1. unfold APIChain_init, pre_root, validate_api_request_prompt.
    by rewrite H1.
Qed.

End ConstructionClaims.

(** The factory goes through the same two checks. *)

Section FactoryLemmas.
Context {World : Type}.
Variable repr_set : gset string -> string.
Variable repr_list : list string -> string.
Variables BaseLanguageModel RequestsDefaults : Type.
Variable LLMChain_new :
  BaseLanguageModel -> BasePromptTemplate -> LLMChain World.
Variable TextRequestsWrapper_new :
  option RequestsDefaults -> TextRequestsWrapper World.
Hypothesis LLMChain_new_prompt :
  forall llm p, prompt (LLMChain_new llm p) = p.

Lemma from_llm_and_api_docs_rejects llm docs defaults p1 p2 parser kwargs :
  list_to_set (input_variables p1) ≠ api_request_vars \/
  list_to_set (input_variables p2) ≠ api_answer_vars ->
  exists e,
    from_llm_and_api_docs repr_set repr_list BaseLanguageModel
      RequestsDefaults LLMChain_new TextRequestsWrapper_new
      llm docs defaults p1 p2 parser kwargs = inl e
    /\ ConfigurationError e.
Proof.
  intros Hbad. unfold from_llm_and_api_docs, APIChain_init, pre_root.
  destruct (decide (list_to_set (input_variables p1) = api_request_vars))
    as [Heq|Hne].
  - destruct Hbad as [Hne|Hne]; [done|].
    erewrite request_prompt_accepted;
      [|reflexivity|by rewrite LLMChain_new_prompt].
    erewrite answer_prompt_rejected;
      [|reflexivity|by rewrite LLMChain_new_prompt].
    eexists. split; [done|by eexists].
  - erewrite request_prompt_rejected;
      [|reflexivity|by rewrite LLMChain_new_prompt].
    eexists. split; [done|by eexists].
Qed.

End FactoryLemmas.

(** * The blocking pipeline *)

Section PipelineClaims.
Context {World : Type}.
Implicit Types (self : APIChain World) (inputs : gmap string string).
Implicit Types (w : World).

(** C3.  Once phase 1 has returned [url] and the first notification has
    come back, the run goes on with [get] of the requests wrapper on exactly
    [url], in the world the notification left, and with nothing else: if that
    fetch raises, the run ends with its exception in the world it left; if it
    returns, the text and the world it returned are what the second
    notification, the parser and phase 2 are run on.  Every fetch the run
    logs is that fetch, with its outcome. *)
Theorem fetch_uses_generated_url self inputs w q url w1 w2 :
  inputs !! question_key self = Some q ->
  predict (api_request_chain self) (request_kwargs q (api_docs self)) w
  = (inr url, w1) ->
  on_text (callback_manager self) url "green" newline (verbose self) w1
  = (inr (), w2) ->
  (forall e w3,
     get (requests_wrapper self) url w2 = (inl e, w3) ->
     _call self inputs w
     = Build_Outcome (inl e) w3
         [Ev_request_predict (request_kwargs q (api_docs self)) (inr url);
          Ev_on_text url "green" newline (verbose self) (inr ());
          Ev_get url (inl e)]) /\
  (forall raw w3 e w4,
     get (requests_wrapper self) url w2 = (inr raw, w3) ->
     on_text (callback_manager self) raw "yellow" newline (verbose self) w3
     = (inl e, w4) ->
     _call self inputs w
     = Build_Outcome (inl e) w4
         [Ev_request_predict (request_kwargs q (api_docs self)) (inr url);
          Ev_on_text url "green" newline (verbose self) (inr ());
          Ev_get url (inr raw);
          Ev_on_text raw "yellow" newline (verbose self) (inl e)]) /\
  (forall raw w3 w4 e w5 evp,
     get (requests_wrapper self) url w2 = (inr raw, w3) ->
     on_text (callback_manager self) raw "yellow" newline (verbose self) w3
     = (inr (), w4) ->
     parse_run self raw w4 (inl e) w5 evp ->
     _call self inputs w
     = Build_Outcome (inl e) w5
         ([Ev_request_predict (request_kwargs q (api_docs self)) (inr url);
           Ev_on_text url "green" newline (verbose self) (inr ());
           Ev_get url (inr raw);
           Ev_on_text raw "yellow" newline (verbose self) (inr ())] ++ evp)) /\
  (forall raw w3 w4 resp w5 evp out w6,
     get (requests_wrapper self) url w2 = (inr raw, w3) ->
     on_text (callback_manager self) raw "yellow" newline (verbose self) w3
     = (inr (), w4) ->
     parse_run self raw w4 (inr resp) w5 evp ->
     predict (api_answer_chain self)
       (answer_kwargs q (api_docs self) url resp) w5 = (out, w6) ->
     _call self inputs w
     = Build_Outcome
         (match out with
          | inl e => inl e
          | inr answer => inr {[ output_key self := answer ]}
          end)
         w6
         ([Ev_request_predict (request_kwargs q (api_docs self)) (inr url);
           Ev_on_text url "green" newline (verbose self) (inr ());
           Ev_get url (inr raw);
           Ev_on_text raw "yellow" newline (verbose self) (inr ())] ++ evp ++
          [Ev_answer_predict (answer_kwargs q (api_docs self) url resp) out])) /\
  (forall url' out,
     Ev_get url' out ∈ events (_call self inputs w) ->
     url' = url /\
     exists w3, get (requests_wrapper self) url w2 = (out, w3)).
Proof.
  intros Hq E1 E2. repeat split.
  - intros e w3 E3. apply call_run_complete. by eapply run_get_raises.
  - intros raw w3 e w4 E3 E4. apply call_run_complete.
    by eapply run_yellow_raises.
  - intros raw w3 w4 e w5 evp E3 E4 P. apply call_run_complete.
    by eapply run_parser_raises.
  - intros raw w3 w4 resp w5 evp out w6 E3 E4 P E6. apply call_run_complete.
    by eapply run_answer.
  - revert H. destruct (_call_run self inputs w); cbn [events];
      unfold green, yellow; invert_parse; intros Hin; cbn [app] in Hin;
      split_elem Hin; by same_calls.
  - revert H. destruct (_call_run self inputs w); cbn [events];
      unfold green, yellow; invert_parse; intros Hin; cbn [app] in Hin;
      split_elem Hin; same_calls; by eexists.
Qed.


(** C5, as amended.  Take a run of [_call] in which the fetch has returned
    [raw] and the second notification has come back, with a parser
    configured.  If the parser is truthy, it is called on [raw], and phase 2
    is called with [api_response] bound to the text the parser returned, in
    the world the parser left: the run ends with what that call answers; if
    the parser raises, the run ends with its exception.  If the parser is
    not truthy it is not called, and phase 2 is called with [api_response]
    bound to [raw]. *)
Theorem parser_output_bound_in_phase2 self inputs w q url raw parser
    w1 w2 w3 w4 :
  inputs !! question_key self = Some q ->
  predict (api_request_chain self) (request_kwargs q (api_docs self)) w
  = (inr url, w1) ->
  on_text (callback_manager self) url "green" newline (verbose self) w1
  = (inr (), w2) ->
  get (requests_wrapper self) url w2 = (inr raw, w3) ->
  on_text (callback_manager self) raw "yellow" newline (verbose self) w3
  = (inr (), w4) ->
  api_request_output_parser self = Some parser ->
  (truthy parser = true ->
   (forall resp w5 out w6,
      call parser raw w4 = (inr resp, w5) ->
      predict (api_answer_chain self)
        (answer_kwargs q (api_docs self) url resp) w5 = (out, w6) ->
      answer_kwargs q (api_docs self) url resp !! "api_response" = Some resp /\
      _call self inputs w
      = Build_Outcome
          (match out with
           | inl e => inl e
           | inr answer => inr {[ output_key self := answer ]}
           end)
          w6
          [Ev_request_predict (request_kwargs q (api_docs self)) (inr url);
           Ev_on_text url "green" newline (verbose self) (inr ());
           Ev_get url (inr raw);
           Ev_on_text raw "yellow" newline (verbose self) (inr ());
           Ev_output_parser raw (inr resp);
           Ev_answer_predict (answer_kwargs q (api_docs self) url resp) out]) /\
   (forall e w5,
      call parser raw w4 = (inl e, w5) ->
      _call self inputs w
      = Build_Outcome (inl e) w5
          [Ev_request_predict (request_kwargs q (api_docs self)) (inr url);
           Ev_on_text url "green" newline (verbose self) (inr ());
           Ev_get url (inr raw);
           Ev_on_text raw "yellow" newline (verbose self) (inr ());
           Ev_output_parser raw (inl e)])) /\
  (truthy parser = false ->
   forall out w6,
     predict (api_answer_chain self)
       (answer_kwargs q (api_docs self) url raw) w4 = (out, w6) ->
     answer_kwargs q (api_docs self) url raw !! "api_response" = Some raw /\
     _call self inputs w
     = Build_Outcome
         (match out with
          | inl e => inl e
          | inr answer => inr {[ output_key self := answer ]}
          end)
         w6
         [Ev_request_predict (request_kwargs q (api_docs self)) (inr url);
          Ev_on_text url "green" newline (verbose self) (inr ());
          Ev_get url (inr raw);
          Ev_on_text raw "yellow" newline (verbose self) (inr ());
          Ev_answer_predict (answer_kwargs q (api_docs self) url raw) out]).
Proof.
  intros Hq E1 E2 E3 E4 Hp. split; [intros Ht; split|intros Ht].
  - intros resp w5 out w6 E5 E6.
    split; [apply answer_kwargs_api_response|].
    apply call_run_complete.
    apply (run_answer self inputs w q url raw resp out w1 w2 w3 w4 w5 w6
             [Ev_output_parser raw (inr resp)] Hq E1 E2 E3 E4); [|done].
    by eapply parse_some.
  - intros e w5 E5. apply call_run_complete.
    apply (run_parser_raises self inputs w q url raw e w1 w2 w3 w4 w5
             [Ev_output_parser raw (inl e)] Hq E1 E2 E3 E4).
    by eapply parse_some.
  - intros out w6 E6. split; [apply answer_kwargs_api_response|].
    apply call_run_complete.
    apply (run_answer self inputs w q url raw raw out w1 w2 w3 w4 w4 w6
             [] Hq E1 E2 E3 E4); [|done].
    by eapply parse_falsy.
Qed.

(** C9.  Once the fetch has returned [raw], the next call of a run of
    [_call] is the notification [on_text] of the callback manager on exactly
    [raw], coloured yellow, in the world the fetch left: if it raises, the
    run ends there and the parser has not run.  Only when it has come back
    does the parsing step run, on [raw] and in the world the notification
    left; and what follows the parsing step is phase 2 and the end of the
    run, with no further notification. *)
Theorem observer_notified_with_raw_text self inputs w q url raw w1 w2 w3 :
  inputs !! question_key self = Some q ->
  predict (api_request_chain self) (request_kwargs q (api_docs self)) w
  = (inr url, w1) ->
  on_text (callback_manager self) url "green" newline (verbose self) w1
  = (inr (), w2) ->
  get (requests_wrapper self) url w2 = (inr raw, w3) ->
  (forall e w4,
     on_text (callback_manager self) raw "yellow" newline (verbose self) w3
     = (inl e, w4) ->
     _call self inputs w
     = Build_Outcome (inl e) w4
         [Ev_request_predict (request_kwargs q (api_docs self)) (inr url);
          Ev_on_text url "green" newline (verbose self) (inr ());
          Ev_get url (inr raw);
          Ev_on_text raw "yellow" newline (verbose self) (inl e)]) /\
  (forall w4,
     on_text (callback_manager self) raw "yellow" newline (verbose self) w3
     = (inr (), w4) ->
     (forall e w5 evp,
        parse_run self raw w4 (inl e) w5 evp ->
        _call self inputs w
        = Build_Outcome (inl e) w5
            ([Ev_request_predict (request_kwargs q (api_docs self)) (inr url);
              Ev_on_text url "green" newline (verbose self) (inr ());
              Ev_get url (inr raw);
              Ev_on_text raw "yellow" newline (verbose self) (inr ())]
             ++ evp)) /\
     (forall resp w5 evp out w6,
        parse_run self raw w4 (inr resp) w5 evp ->
        predict (api_answer_chain self)
          (answer_kwargs q (api_docs self) url resp) w5 = (out, w6) ->
        _call self inputs w
        = Build_Outcome
            (match out with
             | inl e => inl e
             | inr answer => inr {[ output_key self := answer ]}
             end)
            w6
            ([Ev_request_predict (request_kwargs q (api_docs self)) (inr url);
              Ev_on_text url "green" newline (verbose self) (inr ());
              Ev_get url (inr raw);
              Ev_on_text raw "yellow" newline (verbose self) (inr ())]
             ++ evp ++
             [Ev_answer_predict (answer_kwargs q (api_docs self) url resp)
                out]))) /\
  (forall text end_ v out,
     Ev_on_text text "yellow" end_ v out ∈ events (_call self inputs w) ->
     text = raw /\
     exists w4,
       on_text (callback_manager self) raw "yellow" end_ v w3 = (out, w4)).
Proof.
  intros Hq E1 E2 E3. split; [|split].
  - intros e w4 E4. apply call_run_complete. by eapply run_yellow_raises.
  - intros w4 E4. split.
    + intros e w5 evp P. apply call_run_complete. by eapply run_parser_raises.
    + intros resp w5 evp out w6 P E6. apply call_run_complete.
      by eapply run_answer.
  - destruct (_call_run self inputs w); cbn [events];
      unfold green, yellow; invert_parse; intros text end_ v o Hin;
      cbn [app] in Hin; split_elem Hin; same_calls; (split; [done|]);
      by eexists.
Qed.

(** C10.  Two input mappings with the same entry at [question_key] give the
    same run of [_call]: the same result, the same final world and the same
    calls. *)
Theorem other_input_keys_ignored self inputs inputs' w :
  inputs !! question_key self = inputs' !! question_key self ->
  _call self inputs w = _call self inputs' w.
Proof. intros H. unfold _call, getitem. by rewrite H. Qed.

(** C8.  With collaborators whose answers do not depend on the world, a
    second invocation on the same inputs, started in the world the first one
    left, returns the same result and issues the same calls as the first. *)
Theorem repeated_call_same_output self inputs w :
  pure_collaborators self ->
  result (_call self inputs (world (_call self inputs w)))
  = result (_call self inputs w) /\
  events (_call self inputs (world (_call self inputs w)))
  = events (_call self inputs w).
Proof. intros Hpure. by apply _call_stable. Qed.

(** C7.  The end-to-end scenario: with the question about the weather in
    Paris at [question_key], a phase-1 model answering [weather_url], a
    fetcher answering [weather_json], a phase-2 model echoing its
    [api_response] and a callback manager that does not raise, [_call]
    returns exactly the mapping of [output_key] to [weather_json]. *)
Theorem weather_end_to_end docs qk ok (cm : BaseCallbackManager World) v
    inputs w :
  (forall text color end_ vb w', fst (on_text cm text color end_ vb w') = inr ()) ->
  inputs !! qk = Some weather_question ->
  result (_call (weather_chain docs qk ok cm v) inputs w)
  = inr {[ ok := weather_json ]}.
Proof.
  intros Hcm Hq. unfold _call, getitem, weather_chain.
  cbn [question_key api_request_chain api_answer_chain requests_wrapper
       api_docs output_key api_request_output_parser callback_manager verbose].
  rewrite Hq, result_bind_ret, result_bind_invoke. cbn [stub_llm predict fst snd].
  rewrite result_bind_invoke, Hcm.
  rewrite result_bind_invoke. cbn [stub_requests get fst snd].
  rewrite result_bind_invoke, Hcm.
  rewrite result_bind_ret, result_bind_invoke. cbn [fst snd].
  unfold echo_api_response. by rewrite answer_kwargs_api_response.
Qed.

End PipelineClaims.

(** * The suspending pipeline *)

Section AsyncClaims.
Context {World : Type}.
Implicit Types (self : APIChain World) (inputs : gmap string string).
Implicit Types (w : World).

Lemma answer_kwargs_inj q docs url resp resp' :
  answer_kwargs q docs url resp = answer_kwargs q docs url resp' <->
  resp = resp'.
Proof.
  split; [|by intros ->]. intros Heq.
  assert (answer_kwargs q docs url resp !! "api_response" = Some resp') as H
    by (rewrite Heq; apply answer_kwargs_api_response).
  rewrite answer_kwargs_api_response in H. by simplify_eq.
Qed.

(** C6, as amended.  Take a run of [_acall] in which the fetch has returned
    [raw] and the second notification has come back.  Whatever the chain
    holds as parser, phase 2 is called next, with [api_response] bound to
    [raw] and in the world the notification left, and the run ends with what
    it answers: the parser is not called.  When the awaitable methods behave
    as the blocking ones, [_call] on the same inputs differs from it only
    through a parser that is configured and truthy: it then calls phase 2
    with [api_response] bound to the text the parser returned, a binding
    that differs from the one of [_acall] exactly when the parser changed
    the text, or it ends with the parser's exception; with no parser, or one
    that is not truthy, the two paths end with the same result in the same
    world. *)
Theorem acall_skips_parser self inputs w q url raw w1 w2 w3 w4 :
  inputs !! question_key self = Some q ->
  apredict (api_request_chain self) (request_kwargs q (api_docs self)) w
  = (inr url, w1) ->
  on_text (callback_manager self) url "green" newline (verbose self) w1
  = (inr (), w2) ->
  aget (requests_wrapper self) url w2 = (inr raw, w3) ->
  on_text (callback_manager self) raw "yellow" newline (verbose self) w3
  = (inr (), w4) ->
  (forall out w6,
     apredict (api_answer_chain self)
       (answer_kwargs q (api_docs self) url raw) w4 = (out, w6) ->
     answer_kwargs q (api_docs self) url raw !! "api_response" = Some raw /\
     _acall self inputs w
     = Build_Outcome
         (match out with
          | inl e => inl e
          | inr answer => inr {[ output_key self := answer ]}
          end)
         w6
         [Ev_request_apredict (request_kwargs q (api_docs self)) (inr url);
          Ev_on_text url "green" newline (verbose self) (inr ());
          Ev_aget url (inr raw);
          Ev_on_text raw "yellow" newline (verbose self) (inr ());
          Ev_answer_apredict (answer_kwargs q (api_docs self) url raw) out]) /\
  (sync_async_agree self ->
   (forall parser,
      api_request_output_parser self = Some parser ->
      truthy parser = true ->
      (forall resp w5 out w6,
         call parser raw w4 = (inr resp, w5) ->
         predict (api_answer_chain self)
           (answer_kwargs q (api_docs self) url resp) w5 = (out, w6) ->
         _call self inputs w
         = Build_Outcome
             (match out with
              | inl e => inl e
              | inr answer => inr {[ output_key self := answer ]}
              end)
             w6
             [Ev_request_predict (request_kwargs q (api_docs self)) (inr url);
              Ev_on_text url "green" newline (verbose self) (inr ());
              Ev_get url (inr raw);
              Ev_on_text raw "yellow" newline (verbose self) (inr ());
              Ev_output_parser raw (inr resp);
              Ev_answer_predict (answer_kwargs q (api_docs self) url resp)
                out] /\
         (answer_kwargs q (api_docs self) url resp
          ≠ answer_kwargs q (api_docs self) url raw <-> resp ≠ raw)) /\
      (forall e w5,
         call parser raw w4 = (inl e, w5) ->
         result (_call self inputs w) = inl e /\
         world (_call self inputs w) = w5)) /\
   ((api_request_output_parser self = None \/
     exists parser, api_request_output_parser self = Some parser /\
                    truthy parser = false) ->
    result (_call self inputs w) = result (_acall self inputs w) /\
    world (_call self inputs w) = world (_acall self inputs w))).
Proof.
  intros Hq E1 E2 E3 E4.
  assert (forall out w6,
            apredict (api_answer_chain self)
              (answer_kwargs q (api_docs self) url raw) w4 = (out, w6) ->
            _acall self inputs w
            = Build_Outcome
                (match out with
                 | inl e => inl e
                 | inr answer => inr {[ output_key self := answer ]}
                 end)
                w6
                [Ev_request_apredict (request_kwargs q (api_docs self))
                   (inr url);
                 Ev_on_text url "green" newline (verbose self) (inr ());
                 Ev_aget url (inr raw);
                 Ev_on_text raw "yellow" newline (verbose self) (inr ());
                 Ev_answer_apredict
                   (answer_kwargs q (api_docs self) url raw) out]) as Hacall.
  { intros out w6 E6. apply acall_run_complete. by eapply arun_answer. }
  split.
  { intros out w6 E6. split; [apply answer_kwargs_api_response|by apply Hacall]. }
  intros [A1 A2 A3]. rewrite A1 in E1. rewrite A3 in E3. split.
  - intros parser Hp Ht. split.
    + intros resp w5 out w6 E5 E6. split.
      * apply call_run_complete.
        apply (run_answer self inputs w q url raw resp out w1 w2 w3 w4 w5 w6
                 [Ev_output_parser raw (inr resp)] Hq E1 E2 E3 E4); [|done].
        by eapply parse_some.
      * by rewrite answer_kwargs_inj.
    + intros e w5 E5.
      assert (_call self inputs w
              = Build_Outcome (inl e) w5
                  ([Ev_request_predict (request_kwargs q (api_docs self))
                      (inr url);
                    green self url (inr ());
                    Ev_get url (inr raw);
                    yellow self raw (inr ())]
                   ++ [Ev_output_parser raw (inl e)])) as ->; [|done].
      apply call_run_complete. eapply run_parser_raises; eauto.
      by eapply parse_some.
  - intros Hnot.
    specialize (Hacall _ _ (surjective_pairing _)). rewrite Hacall.
    clear Hacall.
    destruct (apredict (api_answer_chain self)
                (answer_kwargs q (api_docs self) url raw) w4)
      as [out w6] eqn:E6.
    rewrite A2 in E6. cbn [fst snd].
    assert (parse_run self raw w4 (inr raw) w4 []) as P.
    { destruct Hnot as [Hp|(parser & Hp & Ht)];
        [by apply parse_none|by eapply parse_falsy]. }
    rewrite (call_run_complete _ _ _ _
               (run_answer self inputs w q url raw raw out w1 w2 w3 w4 w4 w6
                  [] Hq E1 E2 E3 E4 P E6)).
    done.
Qed.

End AsyncClaims.

(** * Further properties of the blocking pipeline *)


Section PipelineProperties.
Context {World : Type}.
Implicit Types (self : APIChain World) (inputs : gmap string string).
Implicit Types (w : World).




(** X4.  A run of [_call] that returns an output has gone through every
    collaborator once, each in the world the one before left: phase 1 on the
    question and the docs returned a URL, the notification of that URL came
    back, the fetch of that URL returned a text, the notification of that
    text came back, the parsing step returned a text, and phase 2, called on
    the question, the docs, the URL and that text, returned the answer in
    the world the run ends in; the output maps [output_key] to that
    answer. *)
Theorem successful_run_calls self inputs w output :
  result (_call self inputs w) = inr output ->
  exists q url raw resp answer w1 w2 w3 w4 w5 evp,
    inputs !! question_key self = Some q /\
    predict (api_request_chain self) (request_kwargs q (api_docs self)) w
    = (inr url, w1) /\
    on_text (callback_manager self) url "green" newline (verbose self) w1
    = (inr (), w2) /\
    get (requests_wrapper self) url w2 = (inr raw, w3) /\
    on_text (callback_manager self) raw "yellow" newline (verbose self) w3
    = (inr (), w4) /\
    parse_run self raw w4 (inr resp) w5 evp /\
    predict (api_answer_chain self)
      (answer_kwargs q (api_docs self) url resp) w5
    = (inr answer, world (_call self inputs w)) /\
    output = {[ output_key self := answer ]} /\
    events (_call self inputs w)
    = [Ev_request_predict (request_kwargs q (api_docs self)) (inr url);
       Ev_on_text url "green" newline (verbose self) (inr ());
       Ev_get url (inr raw);
       Ev_on_text raw "yellow" newline (verbose self) (inr ())] ++ evp ++
      [Ev_answer_predict (answer_kwargs q (api_docs self) url resp)
         (inr answer)].
Proof.
  destruct (_call_run self inputs w); cbn [events result world];
    try discriminate.
  destruct out as [e|answer]; [discriminate|]. intros Ho. simplify_eq.
  by eexists q, url, raw, resp, answer, _, _, _, _, _, evp.
Qed.

(** X5.  The mapping a run of [_call] returns has exactly the keys listed
    by [output_keys], whatever the inputs and the collaborators. *)
Theorem output_has_output_keys self inputs w output :
  result (_call self inputs w) = inr output ->
  dom output = list_to_set (output_keys self).
Proof.
  destruct (_call_run self inputs w); cbn [events result]; try discriminate.
  destruct out as [e|answer]; [discriminate|]. intros Ho. simplify_eq.
  unfold output_keys. rewrite dom_singleton_L. set_solver.
Qed.

(** X6.  Without a parser, once the fetch has returned [raw] and the second
    notification has come back, the next call of [_call] is phase 2 with
    [api_response] bound to [raw], in the world the notification left, and
    the run ends with what it answers. *)
Theorem no_parser_raw_text self inputs w q url raw w1 w2 w3 w4 :
  api_request_output_parser self = None ->
  inputs !! question_key self = Some q ->
  predict (api_request_chain self) (request_kwargs q (api_docs self)) w
  = (inr url, w1) ->
  on_text (callback_manager self) url "green" newline (verbose self) w1
  = (inr (), w2) ->
  get (requests_wrapper self) url w2 = (inr raw, w3) ->
  on_text (callback_manager self) raw "yellow" newline (verbose self) w3
  = (inr (), w4) ->
  forall out w6,
    predict (api_answer_chain self)
      (answer_kwargs q (api_docs self) url raw) w4 = (out, w6) ->
    answer_kwargs q (api_docs self) url raw !! "api_response" = Some raw /\
    _call self inputs w
    = Build_Outcome
        (match out with
         | inl e => inl e
         | inr answer => inr {[ output_key self := answer ]}
         end)
        w6
        [Ev_request_predict (request_kwargs q (api_docs self)) (inr url);
         Ev_on_text url "green" newline (verbose self) (inr ());
         Ev_get url (inr raw);
         Ev_on_text raw "yellow" newline (verbose self) (inr ());
         Ev_answer_predict (answer_kwargs q (api_docs self) url raw) out].
Proof.
  intros Hp Hq E1 E2 E3 E4 out w6 E6.
  split; [apply answer_kwargs_api_response|].
  apply call_run_complete.
  apply (run_answer self inputs w q url raw raw out w1 w2 w3 w4 w4 w6
           [] Hq E1 E2 E3 E4); [|done].
  by apply parse_none.
Qed.

(** X7.  The keyword arguments phase 2 is called with in [_call]: once the
    parsing step has returned [resp], the call that decides how the run ends
    is [predict] of the answer chain on a dict that binds [question] to the
    entry of the inputs at [question_key], [api_docs] to the chain's docs,
    [api_url] to the URL phase 1 returned and that was fetched,
    [api_response] to [resp], and no other name. *)
Theorem phase2_bindings self inputs w q url raw resp w1 w2 w3 w4 w5 evp :
  inputs !! question_key self = Some q ->
  predict (api_request_chain self) (request_kwargs q (api_docs self)) w
  = (inr url, w1) ->
  on_text (callback_manager self) url "green" newline (verbose self) w1
  = (inr (), w2) ->
  get (requests_wrapper self) url w2 = (inr raw, w3) ->
  on_text (callback_manager self) raw "yellow" newline (verbose self) w3
  = (inr (), w4) ->
  parse_run self raw w4 (inr resp) w5 evp ->
  exists kw : gmap string string,
    kw !! "question" = Some q /\
    kw !! "api_docs" = Some (api_docs self) /\
    kw !! "api_url" = Some url /\
    kw !! "api_response" = Some resp /\
    dom kw = api_answer_vars /\
    forall out w6,
      predict (api_answer_chain self) kw w5 = (out, w6) ->
      result (_call self inputs w)
      = match out with
        | inl e => inl e
        | inr answer => inr {[ output_key self := answer ]}
        end /\
      world (_call self inputs w) = w6.
Proof.
  intros Hq E1 E2 E3 E4 P.
  exists (answer_kwargs q (api_docs self) url resp).
  unfold answer_kwargs at 1 2 3 4 5, api_answer_vars.
  split; [by simplify_map_eq|]. split; [by simplify_map_eq|].
  split; [by simplify_map_eq|]. split; [by simplify_map_eq|].
  split; [rewrite !dom_insert_L, dom_empty_L; set_solver|].
  intros out w6 E6.
  by rewrite (call_run_complete _ _ _ _
                (run_answer self inputs w q url raw resp out w1 w2 w3 w4 w5 w6
                   evp Hq E1 E2 E3 E4 P E6)).
Qed.


End PipelineProperties.

(** * Further properties of the suspending pipeline *)

Section AsyncProperties.
Context {World : Type}.
Implicit Types (self : APIChain World) (inputs : gmap string string).
Implicit Types (w : World).


(** X11.  When the awaitable methods of the collaborators behave as the
    blocking ones, a run of [_acall] is the run of [_call] on the same chain
    with its parser taken away: the same result, the same final world, and
    the same calls in their awaitable form.  For a chain without a parser the
    two paths therefore return the same. *)
Theorem acall_is_call_without_parser self inputs w :
  sync_async_agree self ->
  (result (_acall self inputs w)
   = result (_call (without_parser self) inputs w) /\
   world (_acall self inputs w)
   = world (_call (without_parser self) inputs w) /\
   events (_acall self inputs w)
   = to_async <$> events (_call (without_parser self) inputs w)) /\
  (api_request_output_parser self = None ->
   result (_acall self inputs w) = result (_call self inputs w) /\
   world (_acall self inputs w) = world (_call self inputs w)).
Proof.
  intros [A1 A2 A3].
  assert (result (_acall self inputs w)
          = result (_call (without_parser self) inputs w) /\
          world (_acall self inputs w)
          = world (_call (without_parser self) inputs w) /\
          events (_acall self inputs w)
          = to_async <$> events (_call (without_parser self) inputs w)) as Hrun.
  { destruct (_call_run (without_parser self) inputs w);
      destruct (_acall_run self inputs w);
      cbn [events result world]; unfold green, yellow;
      cbn [without_parser api_request_chain api_answer_chain requests_wrapper
           api_docs question_key output_key api_request_output_parser
           callback_manager verbose] in *;
      repeat match goal with
             | H : apredict _ _ _ = _ |- _ => rewrite ?A1, ?A2 in H
             | H : aget _ _ _ = _ |- _ => rewrite A3 in H
             end;
      same_calls;
      invert_parse;
      cbn [without_parser api_request_output_parser] in *;
      same_calls; done. }
  split; [exact Hrun|].
  intros Hp. destruct Hrun as (Hr & Hw & _).
  assert (without_parser self = self) as Heq
    by (destruct self; cbn in Hp; by subst).
  by rewrite Heq in Hr, Hw.
Qed.

End AsyncProperties.

(** * Further properties of the construction *)

Section ConstructionProperties.
Context {World : Type}.
Variable repr_set : gset string -> string.
Variable repr_list : list string -> string.

Lemma validate_api_request_prompt_inv (values values' : Values World) :
  validate_api_request_prompt repr_set repr_list values = inr values' ->
  values' = values /\
  exists chain, v_api_request_chain values = Some chain /\
    list_to_set (input_variables (prompt chain)) = api_request_vars.
Proof.
  unfold validate_api_request_prompt.
  destruct (v_api_request_chain values) as [chain|]; [|done]. cbn zeta.
  case_decide as Hd; [done|]. intros Hv. simplify_eq. split; [done|].
  by exists chain.
Qed.

Lemma validate_api_answer_prompt_inv (values values' : Values World) :
  validate_api_answer_prompt repr_set repr_list values = inr values' ->
  values' = values /\
  exists chain, v_api_answer_chain values = Some chain /\
    list_to_set (input_variables (prompt chain)) = api_answer_vars.
Proof.
  unfold validate_api_answer_prompt.
  destruct (v_api_answer_chain values) as [chain|]; [|done]. cbn zeta.
  case_decide as Hd; [done|]. intros Hv. simplify_eq. split; [done|].
  by exists chain.
Qed.

Lemma pre_root_inv validator (values values' : Values World) :
  pre_root validator values = inr values' -> validator values = inr values'.
Proof. unfold pre_root. by destruct (validator values) as [[]|]. Qed.

(** X12.  Both validators look only at the names a prompt declares, not at
    their order or repetitions: the first accepts exactly the lists made of
    [question] and [api_docs] with both present, the second exactly the
    lists made of the four answer names with all present; and a validator
    that accepts hands the values back unchanged. *)
Theorem validators_accept_iff (values : Values World) chain1 chain2 :
  v_api_request_chain values = Some chain1 ->
  v_api_answer_chain values = Some chain2 ->
  (validate_api_request_prompt repr_set repr_list values = inr values <->
   forall x, x ∈ input_variables (prompt chain1) <->
             x = "question" \/ x = "api_docs") /\
  (validate_api_answer_prompt repr_set repr_list values = inr values <->
   forall x, x ∈ input_variables (prompt chain2) <->
             x = "question" \/ x = "api_docs" \/ x = "api_url"
             \/ x = "api_response") /\
  (forall values',
     validate_api_request_prompt repr_set repr_list values = inr values' \/
     validate_api_answer_prompt repr_set repr_list values = inr values' ->
     values' = values).
Proof.
  intros H1 H2. split; [|split].
  - split.
    + intros Hv. apply validate_api_request_prompt_inv in Hv
        as (_ & chain & Hc & Hs). simplify_eq.
      intros x. rewrite <- (elem_of_list_to_set (C:=gset string)), Hs.
      unfold api_request_vars. set_solver.
    + intros Hx. apply (request_prompt_accepted _ _ _ _ H1).
      apply set_eq. intros x. rewrite elem_of_list_to_set, Hx.
      unfold api_request_vars. set_solver.
  - split.
    + intros Hv. apply validate_api_answer_prompt_inv in Hv
        as (_ & chain & Hc & Hs). simplify_eq.
      intros x. rewrite <- (elem_of_list_to_set (C:=gset string)), Hs.
      unfold api_answer_vars. set_solver.
    + intros Hx. apply (answer_prompt_accepted _ _ _ _ H2).
      apply set_eq. intros x. rewrite elem_of_list_to_set, Hx.
      unfold api_answer_vars. set_solver.
  - intros values' [Hv|Hv].
    + by apply validate_api_request_prompt_inv in Hv as [? _].
    + by apply validate_api_answer_prompt_inv in Hv as [? _].
Qed.

Lemma init_inv (values : Values World) self :
  APIChain_init repr_set repr_list values = inr self ->
  populate values = inr self /\
  list_to_set (input_variables (prompt (api_request_chain self)))
  = api_request_vars /\
  list_to_set (input_variables (prompt (api_answer_chain self)))
  = api_answer_vars.
Proof.
  unfold APIChain_init.
  destruct (pre_root _ values) as [?|v1] eqn:E1; [done|].
  apply pre_root_inv, validate_api_request_prompt_inv in E1
    as (-> & c1 & Hc1 & Hs1).
  destruct (pre_root _ values) as [?|v2] eqn:E2; [done|].
  apply pre_root_inv, validate_api_answer_prompt_inv in E2
    as (-> & c2 & Hc2 & Hs2).
  intros Hp. split; [done|]. unfold populate in Hp. rewrite Hc1, Hc2 in Hp.
  destruct (v_requests_wrapper values), (v_api_docs values); simplify_eq/=.
  done.
Qed.

(** X13.  Every chain the constructor returns satisfies both prompt
    contracts, carries the supplied collaborators, docs and parser as they
    were given, and has [question_key] and [output_key] equal to the supplied
    ones or else to ["question"] and ["output"]. *)
Theorem constructed_chain_fields (values : Values World) self :
  APIChain_init repr_set repr_list values = inr self ->
  list_to_set (input_variables (prompt (api_request_chain self)))
  = api_request_vars /\
  list_to_set (input_variables (prompt (api_answer_chain self)))
  = api_answer_vars /\
  v_api_request_chain values = Some (api_request_chain self) /\
  v_api_answer_chain values = Some (api_answer_chain self) /\
  v_requests_wrapper values = Some (requests_wrapper self) /\
  v_api_docs values = Some (api_docs self) /\
  api_request_output_parser self = v_api_request_output_parser values /\
  question_key self = default "question" (v_question_key values) /\
  output_key self = default "output" (v_output_key values).
Proof.
  intros Hinit. apply init_inv in Hinit as (Hp & Hs1 & Hs2).
  split; [done|]. split; [done|]. unfold populate in Hp.
  destruct (v_api_request_chain values), (v_api_answer_chain values),
    (v_requests_wrapper values), (v_api_docs values); simplify_eq/=.
  done.
Qed.

(** X14.  The constructor returns a chain exactly when both chains, the
    requests wrapper and the docs are supplied and both prompts declare
    exactly their expected names. *)
Theorem init_succeeds_iff (values : Values World) :
  (exists self, APIChain_init repr_set repr_list values = inr self) <->
  (exists chain1 chain2,
     v_api_request_chain values = Some chain1 /\
     v_api_answer_chain values = Some chain2 /\
     list_to_set (input_variables (prompt chain1)) = api_request_vars /\
     list_to_set (input_variables (prompt chain2)) = api_answer_vars) /\
  is_Some (v_requests_wrapper values) /\ is_Some (v_api_docs values).
Proof.
  split.
  - intros [self Hinit]. apply init_inv in Hinit as (Hp & Hs1 & Hs2).
    unfold populate in Hp.
    destruct (v_api_request_chain values), (v_api_answer_chain values),
      (v_requests_wrapper values), (v_api_docs values); simplify_eq/=.
    split; [by eexists _, _|]. by split.
  - intros [(c1 & c2 & H1 & H2 & Hs1 & Hs2) [[r H3] [d H4]]].
    destruct (init_accepted repr_set repr_list values c1 c2 r d)
      as (self & Hinit & _); eauto.
Qed.

(** X15.  The order of the checks at construction: a missing
    [api_request_chain] raises [KeyError] before anything else is looked at;
    a request prompt with the wrong names is reported, with the expected set
    and the declared list in the message, whatever the answer chain is, even
    if it is missing; and only with a valid request prompt does a missing
    [api_answer_chain] raise its [KeyError].  The two [KeyError]s are not
    ConfigurationErrors. *)
Theorem construction_check_order (values : Values World) :
  (v_api_request_chain values = None ->
   APIChain_init repr_set repr_list values
   = inl (KeyError "api_request_chain")) /\
  (forall chain,
     v_api_request_chain values = Some chain ->
     list_to_set (input_variables (prompt chain)) ≠ api_request_vars ->
     APIChain_init repr_set repr_list values
     = inl (ValidationError
              [RootError
                 ("Input variables should be " +:+ repr_set api_request_vars
                  +:+ ", got " +:+ repr_list (input_variables (prompt chain)))])) /\
  (forall chain,
     v_api_request_chain values = Some chain ->
     list_to_set (input_variables (prompt chain)) = api_request_vars ->
     v_api_answer_chain values = None ->
     APIChain_init repr_set repr_list values
     = inl (KeyError "api_answer_chain")) /\
  (forall key, ~ ConfigurationError (KeyError key)).
Proof.
  split; [|split; [|split]].
  - intros H. unfold APIChain_init, pre_root, validate_api_request_prompt.
    by rewrite H.
  - intros chain Hc Hne. by apply init_request_prompt_rejected.
  - intros chain Hc Hs Ha. unfold APIChain_init, pre_root.
    rewrite (request_prompt_accepted _ _ _ _ Hc Hs).
    unfold validate_api_answer_prompt. by rewrite Ha.
  - intros key [msg Hmsg]. discriminate.
Qed.




End ConstructionProperties.

(** * The factory *)

Section FactoryProperties.
Context {World : Type}.
Variable repr_set : gset string -> string.
Variable repr_list : list string -> string.
Variables BaseLanguageModel RequestsDefaults : Type.
Variable LLMChain_new :
  BaseLanguageModel -> BasePromptTemplate -> LLMChain World.
Variable TextRequestsWrapper_new :
  option RequestsDefaults -> TextRequestsWrapper World.

(** X17.  Provided an [LLMChain] keeps the prompt it is built with,
    [from_llm_and_api_docs] returns a chain exactly when both prompts declare
    their expected names and fails with a ConfigurationError otherwise; the
    chain it returns holds the two [LLMChain]s built from the model and the
    prompts, the wrapper built from the request defaults, and the docs, the
    parser and the keyword arguments as they were passed. *)
Theorem from_llm_and_api_docs_contract llm docs defaults p1 p2 parser kwargs :
  (forall m p, prompt (LLMChain_new m p) = p) ->
  (list_to_set (input_variables p1) ≠ api_request_vars \/
   list_to_set (input_variables p2) ≠ api_answer_vars ->
   exists e,
     from_llm_and_api_docs repr_set repr_list BaseLanguageModel
       RequestsDefaults LLMChain_new TextRequestsWrapper_new
       llm docs defaults p1 p2 parser kwargs = inl e
     /\ ConfigurationError e) /\
  (list_to_set (input_variables p1) = api_request_vars ->
   list_to_set (input_variables p2) = api_answer_vars ->
   from_llm_and_api_docs repr_set repr_list BaseLanguageModel
     RequestsDefaults LLMChain_new TextRequestsWrapper_new
     llm docs defaults p1 p2 parser kwargs
   = inr {| api_request_chain := LLMChain_new llm p1;
            api_answer_chain := LLMChain_new llm p2;
            requests_wrapper := TextRequestsWrapper_new defaults;
            api_docs := docs;
            question_key := default "question" (kw_question_key kwargs);
            output_key := default "output" (kw_output_key kwargs);
            api_request_output_parser := parser;
            callback_manager := kw_callback_manager kwargs;
            verbose := kw_verbose kwargs |}).
Proof.
  intros Hprompt. split.
  - by apply from_llm_and_api_docs_rejects.
  - intros Hs1 Hs2. unfold from_llm_and_api_docs, APIChain_init, pre_root.
    erewrite request_prompt_accepted;
      [|reflexivity|by rewrite Hprompt].
    erewrite answer_prompt_accepted;
      [|reflexivity|by rewrite Hprompt].
    reflexivity.
Qed.

End FactoryProperties.


(** * The chain on concrete inputs *)

(** A run with the parser [toUpperCase], on collaborators that check what
    they are given: the blocking path hands the upper-cased text to phase 2,
    the suspending path the fetched text. *)
Example probe_call_upper :
  _call (probe_chain (Some upper_parser)) demo_inputs tt
  = Build_Outcome (inr {[ "output" := "ABC" ]}) tt
      (probe_fetched ++
       [Ev_output_parser "abc" (inr "ABC");
        Ev_answer_predict (answer_kwargs "q" "docs" probe_url "ABC")
          (inr "ABC")]).
Proof. by vm_compute. Qed.

Example probe_acall_upper :
  _acall (probe_chain (Some upper_parser)) demo_inputs tt
  = Build_Outcome (inr {[ "output" := "abc" ]}) tt
      [Ev_request_apredict (request_kwargs "q" "docs") (inr probe_url);
       Ev_on_text probe_url "green" newline false (inr ());
       Ev_aget probe_url (inr "abc");
       Ev_on_text "abc" "yellow" newline false (inr ());
       Ev_answer_apredict (answer_kwargs "q" "docs" probe_url "abc")
         (inr "abc")].
Proof. by vm_compute. Qed.

(** The collaborators of [probe_chain] do tell a wrong argument. *)
Example probe_chain_checks :
  result (_call (probe_chain None) {[ "question" := "other" ]} tt)
  = inl (Raised "AssertionError" "unexpected argument").
Proof. by vm_compute. Qed.

(** A construction with the default prompts' variables, in any order and
    with repetitions, succeeds and takes the default keys. *)
Example demo_init_accepts :
  match APIChain_init (fun _ => "set") (fun _ => "list")
          (demo_values ["api_docs"; "question"; "question"]
             ["api_url"; "question"; "api_docs"; "api_response"]) with
  | inr self => question_key self = "question" /\ output_key self = "output"
  | inl _ => False
  end.
Proof. by vm_compute. Qed.

(** * The properties of the pipeline and of the construction at concrete
    inputs *)

Lemma request_prompt_contract_witness :
  exists e,
    APIChain_init (fun _ => "set") (fun _ => "list")
      (demo_values ["question"]
         ["question"; "api_docs"; "api_url"; "api_response"]) = inl e
    /\ ConfigurationError e.
Proof.
  apply (proj1 (proj2
           (request_prompt_contract (fun _ => "set") (fun _ => "list")
              (demo_values ["question"]
                 ["question"; "api_docs"; "api_url"; "api_response"])
              (stub_llm ["question"] (fun _ => inr "u")) eq_refl))).
  reflexivity.
Defined.

Lemma answer_prompt_contract_witness :
  exists e,
    APIChain_init (fun _ => "set") (fun _ => "list")
      (demo_values ["question"; "api_docs"] ["question"; "api_docs"]) = inl e
    /\ ConfigurationError e.
Proof.
  refine (proj1 (proj2
            (answer_prompt_contract (fun _ => "set") (fun _ => "list")
               (demo_values ["question"; "api_docs"] ["question"; "api_docs"])
               (stub_llm ["question"; "api_docs"] echo_api_response)
               eq_refl _))
            (stub_llm ["question"; "api_docs"] (fun _ => inr "u")) eq_refl).
  apply (bool_decide_unpack _). vm_compute. exact I.
Defined.

(** No request chain is supplied and the answer prompt declares [question]
    alone: the construction fails, but with the [KeyError] of the first
    validator, which is no ConfigurationError. *)
Lemma answer_prompt_contract_counterexample :
  v_api_answer_chain demo_values_no_request_chain
  = Some (stub_llm ["question"] echo_api_response) /\
  list_to_set ["question"] ≠ api_answer_vars /\
  APIChain_init (fun _ => "set") (fun _ => "list") demo_values_no_request_chain
  = inl (KeyError "api_request_chain") /\
  ~ ConfigurationError (KeyError "api_request_chain").
Proof.
  split; [reflexivity|]. split.
  { apply (bool_decide_unpack _). vm_compute. exact I. }
  split; [reflexivity|]. intros [msg Hmsg]. discriminate.
Qed.

Lemma fetch_uses_generated_url_witness :
  _call (probe_chain (Some upper_parser)) demo_inputs tt
  = Build_Outcome (inr {[ "output" := "ABC" ]}) tt
      (probe_fetched ++ [Ev_output_parser "abc" (inr "ABC")] ++
       [Ev_answer_predict (answer_kwargs "q" "docs" probe_url "ABC")
          (inr "ABC")]).
Proof.
  refine (proj1 (proj2 (proj2 (proj2
            (fetch_uses_generated_url (probe_chain (Some upper_parser))
               demo_inputs tt "q" probe_url tt tt eq_refl eq_refl eq_refl))))
            "abc" tt tt "ABC" tt [Ev_output_parser "abc" (inr "ABC")]
            (inr "ABC") tt eq_refl eq_refl _ eq_refl).
  by eapply parse_some.
Defined.


Lemma parser_output_bound_in_phase2_witness :
  answer_kwargs "q" "docs" probe_url "ABC" !! "api_response" = Some "ABC" /\
  _call (probe_chain (Some upper_parser)) demo_inputs tt
  = Build_Outcome (inr {[ "output" := "ABC" ]}) tt
      [Ev_request_predict (request_kwargs "q" "docs") (inr probe_url);
       Ev_on_text probe_url "green" newline false (inr ());
       Ev_get probe_url (inr "abc");
       Ev_on_text "abc" "yellow" newline false (inr ());
       Ev_output_parser "abc" (inr "ABC");
       Ev_answer_predict (answer_kwargs "q" "docs" probe_url "ABC")
         (inr "ABC")].
Proof.
  exact (proj1 (proj1
           (parser_output_bound_in_phase2 (probe_chain (Some upper_parser))
              demo_inputs tt "q" probe_url "abc" upper_parser tt tt tt tt
              eq_refl eq_refl eq_refl eq_refl eq_refl eq_refl) eq_refl)
           "ABC" tt (inr "ABC") tt eq_refl eq_refl).
Defined.

(** A parser that is configured, would turn ["abc"] into ["ABC"], but is
    not truthy: phase 2 is called with the fetched text ["abc"]. *)
Lemma parser_output_bound_in_phase2_counterexample :
  api_request_output_parser (probe_chain (Some falsy_upper))
  = Some falsy_upper /\
  call falsy_upper "abc" tt = (inr "ABC", tt) /\
  _call (probe_chain (Some falsy_upper)) demo_inputs tt
  = Build_Outcome (inr {[ "output" := "abc" ]}) tt
      (probe_fetched ++
       [Ev_answer_predict (answer_kwargs "q" "docs" probe_url "abc")
          (inr "abc")]).
Proof. split; [reflexivity|]. split; [reflexivity|]. by vm_compute. Qed.

Lemma weather_end_to_end_witness :
  result (_call (weather_chain "docs" "question" "output"
                   (silent_callbacks (World:=unit)) false)
            {[ "question" := weather_question ]} tt)
  = inr {[ "output" := weather_json ]}.
Proof.
  apply weather_end_to_end.
  - reflexivity.
  - reflexivity.
Defined.

Lemma demo_chain_pure fetched parser :
  pure_collaborators (demo_chain fetched parser).
Proof.
  split; try (intros; intros w w'; reflexivity).
  intros p text Hp w w'. destruct parser as [f|]; simplify_eq/=. reflexivity.
Qed.

Lemma repeated_call_same_output_witness :
  result (_call (demo_chain (inr "abc") (Some toUpperCase)) demo_inputs
            (world (_call (demo_chain (inr "abc") (Some toUpperCase))
                      demo_inputs tt)))
  = result (_call (demo_chain (inr "abc") (Some toUpperCase)) demo_inputs tt).
Proof.
  apply (repeated_call_same_output
           (demo_chain (inr "abc") (Some toUpperCase)) demo_inputs tt).
  apply demo_chain_pure.
Defined.

Lemma observer_notified_with_raw_text_witness :
  _call noisy_chain demo_inputs tt
  = Build_Outcome (inl (Raised "OSError" "closed")) tt
      [Ev_request_predict (request_kwargs "q" "docs") (inr "http://x/y?z=1");
       Ev_on_text "http://x/y?z=1" "green" newline false (inr ());
       Ev_get "http://x/y?z=1" (inr "abc");
       Ev_on_text "abc" "yellow" newline false
         (inl (Raised "OSError" "closed"))].
Proof.
  exact (proj1
           (observer_notified_with_raw_text noisy_chain demo_inputs tt
              "q" "http://x/y?z=1" "abc" tt tt tt
              eq_refl eq_refl eq_refl eq_refl)
           (Raised "OSError" "closed") tt eq_refl).
Defined.

Lemma other_input_keys_ignored_witness :
  _call (demo_chain (inr "abc") None) demo_inputs tt
  = _call (demo_chain (inr "abc") None)
      (<["verbose" := "yes"]> (<["api_docs" := "other"]> demo_inputs)) tt.
Proof.
  apply (other_input_keys_ignored (demo_chain (inr "abc") None)).
  reflexivity.
Defined.

Lemma acall_skips_parser_witness :
  answer_kwargs "q" "docs" probe_url "abc" !! "api_response" = Some "abc" /\
  _acall (probe_chain (Some upper_parser)) demo_inputs tt
  = Build_Outcome (inr {[ "output" := "abc" ]}) tt
      [Ev_request_apredict (request_kwargs "q" "docs") (inr probe_url);
       Ev_on_text probe_url "green" newline false (inr ());
       Ev_aget probe_url (inr "abc");
       Ev_on_text "abc" "yellow" newline false (inr ());
       Ev_answer_apredict (answer_kwargs "q" "docs" probe_url "abc")
         (inr "abc")].
Proof.
  exact (proj1
           (acall_skips_parser (probe_chain (Some upper_parser))
              demo_inputs tt "q" probe_url "abc" tt tt tt tt
              eq_refl eq_refl eq_refl eq_refl eq_refl)
           (inr "abc") tt eq_refl).
Defined.

(** A parser that is configured and would change the fetched text, but is
    not truthy: the two paths do not diverge, both hand ["abc"] to phase
    2. *)
Lemma acall_skips_parser_counterexample :
  api_request_output_parser (probe_chain (Some falsy_upper))
  = Some falsy_upper /\
  call falsy_upper "abc" tt = (inr "ABC", tt) /\
  "ABC" ≠ "abc" /\
  result (_call (probe_chain (Some falsy_upper)) demo_inputs tt)
  = inr {[ "output" := "abc" ]} /\
  result (_acall (probe_chain (Some falsy_upper)) demo_inputs tt)
  = inr {[ "output" := "abc" ]}.
Proof.
  split; [reflexivity|]. split; [reflexivity|]. split; [discriminate|].
  split; by vm_compute.
Qed.

(** * The further properties at concrete inputs *)




Lemma output_has_output_keys_witness :
  dom ({[ "output" := "ABC" ]} : gmap string string)
  = list_to_set (output_keys (demo_chain (inr "abc") (Some toUpperCase))).
Proof.
  apply (output_has_output_keys (demo_chain (inr "abc") (Some toUpperCase))
           demo_inputs tt).
  by vm_compute.
Defined.


Lemma demo_chain_agree fetched parser :
  sync_async_agree (demo_chain fetched parser).
Proof. by split. Qed.

Lemma acall_is_call_without_parser_witness :
  result (_acall (demo_chain (inr "abc") (Some toUpperCase)) demo_inputs tt)
  = result (_call (without_parser (demo_chain (inr "abc") (Some toUpperCase)))
              demo_inputs tt) /\
  world (_acall (demo_chain (inr "abc") (Some toUpperCase)) demo_inputs tt)
  = world (_call (without_parser (demo_chain (inr "abc") (Some toUpperCase)))
             demo_inputs tt) /\
  events (_acall (demo_chain (inr "abc") (Some toUpperCase)) demo_inputs tt)
  = to_async <$>
      events (_call (without_parser (demo_chain (inr "abc") (Some toUpperCase)))
                demo_inputs tt).
Proof.
  apply (proj1 (acall_is_call_without_parser
                  (demo_chain (inr "abc") (Some toUpperCase)) demo_inputs tt
                  (demo_chain_agree _ _))).
Defined.

Lemma validators_accept_iff_witness :
  validate_api_request_prompt (fun _ => "set") (fun _ => "list")
    (demo_values ["api_docs"; "question"; "api_docs"] ["question"])
  = inr (demo_values ["api_docs"; "question"; "api_docs"] ["question"]).
Proof.
  apply (proj1 (validators_accept_iff (fun _ => "set") (fun _ => "list")
                  (demo_values ["api_docs"; "question"; "api_docs"]
                     ["question"])
                  (stub_llm ["api_docs"; "question"; "api_docs"]
                     (fun _ => inr "u"))
                  (stub_llm ["question"] echo_api_response)
                  eq_refl eq_refl)).
  intros x. cbn [input_variables prompt stub_llm].
  rewrite !elem_of_cons, elem_of_nil. tauto.
Defined.

Lemma demo_values_built :
  APIChain_init (fun _ => "set") (fun _ => "list")
    (demo_values ["api_docs"; "question"]
       ["api_url"; "question"; "api_docs"; "api_response"])
  = inr (demo_built ["api_docs"; "question"]
           ["api_url"; "question"; "api_docs"; "api_response"]).
Proof. by vm_compute. Qed.

Lemma constructed_chain_fields_witness :
  question_key (demo_built ["api_docs"; "question"]
                  ["api_url"; "question"; "api_docs"; "api_response"])
  = default "question" None /\
  output_key (demo_built ["api_docs"; "question"]
                ["api_url"; "question"; "api_docs"; "api_response"])
  = default "output" None.
Proof.
  apply (constructed_chain_fields (fun _ => "set") (fun _ => "list")
           _ _ demo_values_built).
Defined.

Lemma init_succeeds_iff_witness :
  exists self,
    APIChain_init (fun _ => "set") (fun _ => "list")
      (demo_values ["api_docs"; "question"]
         ["api_url"; "question"; "api_docs"; "api_response"]) = inr self.
Proof.
  apply (proj2 (init_succeeds_iff (fun _ => "set") (fun _ => "list")
                  (demo_values ["api_docs"; "question"]
                     ["api_url"; "question"; "api_docs"; "api_response"]))).
  split.
  - eexists _, _. split; [reflexivity|]. split; [reflexivity|].
    split; apply (bool_decide_unpack _); vm_compute; exact I.
  - split; eexists; reflexivity.
Defined.

Lemma construction_check_order_witness :
  APIChain_init (fun _ => "set") (fun _ => "list") demo_values_no_request_chain
  = inl (KeyError "api_request_chain").
Proof.
  apply (proj1 (construction_check_order (fun _ => "set") (fun _ => "list")
                  demo_values_no_request_chain)).
  reflexivity.
Defined.

Lemma from_llm_and_api_docs_contract_witness :
  from_llm_and_api_docs (fun _ => "set") (fun _ => "list")
    (gmap string string -> exn + string) unit
    demo_LLMChain_new demo_TextRequestsWrapper_new
    echo_api_response "docs" None
    {| input_variables := ["question"; "api_docs"] |}
    {| input_variables := ["question"; "api_docs"; "api_url"; "api_response"] |}
    (Some upper_parser) demo_kwargs
  = inr {| api_request_chain :=
             demo_LLMChain_new echo_api_response
               {| input_variables := ["question"; "api_docs"] |};
           api_answer_chain :=
             demo_LLMChain_new echo_api_response
               {| input_variables :=
                    ["question"; "api_docs"; "api_url"; "api_response"] |};
           requests_wrapper := demo_TextRequestsWrapper_new None;
           api_docs := "docs";
           question_key := default "question" (kw_question_key demo_kwargs);
           output_key := default "output" (kw_output_key demo_kwargs);
           api_request_output_parser := Some upper_parser;
           callback_manager := kw_callback_manager demo_kwargs;
           verbose := kw_verbose demo_kwargs |}.
Proof.
  apply (proj2 (from_llm_and_api_docs_contract (fun _ => "set")
                  (fun _ => "list") (gmap string string -> exn + string) unit
                  demo_LLMChain_new demo_TextRequestsWrapper_new
                  echo_api_response "docs" None
                  {| input_variables := ["question"; "api_docs"] |}
                  {| input_variables :=
                       ["question"; "api_docs"; "api_url"; "api_response"] |}
                  (Some upper_parser) demo_kwargs
                  (fun m p => eq_refl))).
  - apply (bool_decide_unpack _). vm_compute. exact I.
  - apply (bool_decide_unpack _). vm_compute. exact I.
Defined.

Lemma successful_run_calls_witness :
  exists q url raw resp answer w1 w2 w3 w4 w5 evp,
    demo_inputs !! question_key (probe_chain (Some upper_parser)) = Some q /\
    predict (api_request_chain (probe_chain (Some upper_parser)))
      (request_kwargs q "docs") tt = (inr url, w1) /\
    on_text (callback_manager (probe_chain (Some upper_parser))) url "green"
      newline false w1 = (inr (), w2) /\
    get (requests_wrapper (probe_chain (Some upper_parser))) url w2
    = (inr raw, w3) /\
    on_text (callback_manager (probe_chain (Some upper_parser))) raw "yellow"
      newline false w3 = (inr (), w4) /\
    parse_run (probe_chain (Some upper_parser)) raw w4 (inr resp) w5 evp /\
    predict (api_answer_chain (probe_chain (Some upper_parser)))
      (answer_kwargs q "docs" url resp) w5
    = (inr answer,
       world (_call (probe_chain (Some upper_parser)) demo_inputs tt)) /\
    ({[ "output" := "ABC" ]} : gmap string string)
    = {[ output_key (probe_chain (Some upper_parser)) := answer ]} /\
    events (_call (probe_chain (Some upper_parser)) demo_inputs tt)
    = [Ev_request_predict (request_kwargs q "docs") (inr url);
       Ev_on_text url "green" newline false (inr ());
       Ev_get url (inr raw);
       Ev_on_text raw "yellow" newline false (inr ())] ++ evp ++
      [Ev_answer_predict (answer_kwargs q "docs" url resp) (inr answer)].
Proof.
  apply (successful_run_calls (probe_chain (Some upper_parser))
           demo_inputs tt {[ "output" := "ABC" ]}).
  by vm_compute.
Defined.

Lemma no_parser_raw_text_witness :
  answer_kwargs "q" "docs" probe_url "abc" !! "api_response" = Some "abc" /\
  _call (probe_chain None) demo_inputs tt
  = Build_Outcome (inr {[ "output" := "abc" ]}) tt
      [Ev_request_predict (request_kwargs "q" "docs") (inr probe_url);
       Ev_on_text probe_url "green" newline false (inr ());
       Ev_get probe_url (inr "abc");
       Ev_on_text "abc" "yellow" newline false (inr ());
       Ev_answer_predict (answer_kwargs "q" "docs" probe_url "abc")
         (inr "abc")].
Proof.
  exact (no_parser_raw_text (probe_chain None) demo_inputs tt
           "q" probe_url "abc" tt tt tt tt
           eq_refl eq_refl eq_refl eq_refl eq_refl eq_refl
           (inr "abc") tt eq_refl).
Defined.

Lemma phase2_bindings_witness :
  exists kw : gmap string string,
    kw !! "question" = Some "q" /\
    kw !! "api_docs" = Some "docs" /\
    kw !! "api_url" = Some probe_url /\
    kw !! "api_response" = Some "ABC" /\
    dom kw = api_answer_vars /\
    forall out w6,
      predict (api_answer_chain (probe_chain (Some upper_parser))) kw tt
      = (out, w6) ->
      result (_call (probe_chain (Some upper_parser)) demo_inputs tt)
      = match out with
        | inl e => inl e
        | inr answer => inr {[ "output" := answer ]}
        end /\
      world (_call (probe_chain (Some upper_parser)) demo_inputs tt) = w6.
Proof.
  refine (phase2_bindings (probe_chain (Some upper_parser)) demo_inputs tt
            "q" probe_url "abc" "ABC" tt tt tt tt tt
            [Ev_output_parser "abc" (inr "ABC")]
            eq_refl eq_refl eq_refl eq_refl eq_refl _).
  by eapply parse_some.
Defined.


